(** * apple-health-collector: the health-data route and the dashboard's
      data shaping, embedded from the TypeScript sources.

    Sources embedded here:
    - [app/api/health-data/route.ts] in its two versions ([POST] alone,
      writing [data/health-data.json]; and [POST], [GET], [gen],
      [generateTestData] writing [health-data.json]);
    - the dashboard component [HealthDashboard] ([filteredData],
      [chartData], [getMetricInfo], [getMinMaxValues], [isDataEmpty] and the
      three metric cards).

    Library calls the sources make ([parseInt], [parseFloat], [Math.round],
    [Number.prototype.toFixed], [Date], [Array.prototype.sort], and
    date-fns' [parse], [format], [subMonths]) are modelled after ECMAScript
    and the date-fns sources. *)

From Stdlib Require Import ZArith QArith Qround Qabs List String Ascii Bool Lia
  Permutation Sorted.
Import ListNotations.
Open Scope Z_scope.

(** ** JavaScript numbers

    A JavaScript number is an IEEE-754 double.  The embedding keeps the
    special values the code depends on ([NaN], the two infinities) and
    idealises every finite double as an exact rational: rounding error and
    overflow of finite arithmetic are outside the model, and so is the sign
    of zero. *)

Inductive number : Type :=
| NaN
| PInf
| NInf
| Fin (q : Q).

(** Equality of numbers up to the representation of the rational. *)
Definition num_eq (a b : number) : Prop :=
  match a, b with
  | NaN, NaN => True
  | PInf, PInf => True
  | NInf, NInf => True
  | Fin p, Fin q => p == q
  | _, _ => False
  end.

(** [a > b] of JavaScript: false as soon as one side is [NaN]. *)
Definition num_gt (a b : number) : bool :=
  match a, b with
  | NaN, _ | _, NaN => false
  | PInf, PInf => false
  | PInf, _ => true
  | _, PInf => false
  | NInf, _ => false
  | Fin _, NInf => true
  | Fin p, Fin q => negb (Qle_bool p q)
  end.

(** [a + b]. *)
Definition num_add (a b : number) : number :=
  match a, b with
  | NaN, _ | _, NaN => NaN
  | PInf, NInf | NInf, PInf => NaN
  | PInf, _ | _, PInf => PInf
  | NInf, _ | _, NInf => NInf
  | Fin p, Fin q => Fin (p + q)
  end.

(** [a / n] for an array length [n] (a non-negative integer). *)
Definition num_div_len (a : number) (n : nat) : number :=
  match n with
  | O =>
      match a with
      | NaN => NaN
      | PInf => PInf
      | NInf => NInf
      | Fin q => if Qeq_bool q 0 then NaN
                 else if Qle_bool q 0 then NInf else PInf
      end
  | S _ =>
      match a with
      | Fin q => Fin (q / inject_Z (Z.of_nat n))
      | other => other
      end
  end.

(** [Math.round]: the nearest integer, halves going towards +infinity. *)
Definition Math_round (a : number) : number :=
  match a with
  | Fin q => Fin (inject_Z (Qfloor (q + (1 # 2))))
  | other => other
  end.

(** The smaller and the larger of two numbers, as [Math.min] and
    [Math.max] combine their arguments: [NaN] is contagious. *)
Definition num_min (a b : number) : number :=
  match a, b with
  | NaN, _ | _, NaN => NaN
  | NInf, _ | _, NInf => NInf
  | PInf, x | x, PInf => x
  | Fin p, Fin q => if Qle_bool p q then Fin p else Fin q
  end.

Definition num_max (a b : number) : number :=
  match a, b with
  | NaN, _ | _, NaN => NaN
  | PInf, _ | _, PInf => PInf
  | NInf, x | x, NInf => x
  | Fin p, Fin q => if Qle_bool p q then Fin q else Fin p
  end.

(** [Math.min(...values)] and [Math.max(...values)]: with no argument the
    results are +infinity and -infinity. *)
Definition Math_min (values : list number) : number :=
  fold_left num_min values PInf.

Definition Math_max (values : list number) : number :=
  fold_left num_max values NInf.

(** ** Strings: characters, digits, white space *)

Definition chars (s : string) : list ascii := list_ascii_of_string s.

Definition code (c : ascii) : Z := Z.of_N (N_of_ascii c).

Definition is_digit (c : ascii) : bool := (48 <=? code c) && (code c <=? 57).

Definition digit_val (c : ascii) : Z := code c - 48.

(** Value of a digit in radix 10 or 16, [None] when [c] is no digit of the
    radix. *)
Definition radix_digit (radix : Z) (c : ascii) : option Z :=
  let n := code c in
  let v := if (48 <=? n) && (n <=? 57) then n - 48
           else if (97 <=? n) && (n <=? 102) then n - 87
           else if (65 <=? n) && (n <=? 70) then n - 55
           else 99 in
  if v <? radix then Some v else None.

(** The longest prefix of decimal digits, and what follows it. *)
Fixpoint span_digits (l : list ascii) : list ascii * list ascii :=
  match l with
  | c :: r =>
      if is_digit c
      then let (ds, rest) := span_digits r in (c :: ds, rest)
      else ([], l)
  | [] => ([], [])
  end.

(** Value of a sequence of decimal digits, most significant first. *)
Definition Z_of_digits (ds : list ascii) : Z :=
  fold_left (fun acc c => 10 * acc + digit_val c) ds 0.

(** Value of the longest prefix of radix-[radix] digits, [None] when that
    prefix is empty. *)
Fixpoint radix_prefix (radix : Z) (l : list ascii) (acc : option Z) : option Z :=
  match l with
  | c :: r =>
      match radix_digit radix c with
      | Some v =>
          radix_prefix radix r
            (Some (radix * match acc with Some a => a | None => 0 end + v))
      | None => acc
      end
  | [] => acc
  end.

(** Leading white space and line terminators ([StrWhiteSpaceChar]) are
    skipped by [parseInt] and [parseFloat].  Strings are UTF-8 byte
    sequences here, so the non-ASCII members of the class are the byte
    sequences of U+00A0, U+1680, U+2000..U+200A, U+2028, U+2029, U+202F,
    U+205F, U+3000 and U+FEFF. *)
Definition ascii_space (c : ascii) : bool :=
  let n := code c in ((9 <=? n) && (n <=? 13)) || (n =? 32).

Fixpoint skip_ws (l : list ascii) : list ascii :=
  match l with
  | c :: r =>
      if ascii_space c then skip_ws r
      else
        match r with
        | c2 :: r2 =>
            if (code c =? 194) && (code c2 =? 160) then skip_ws r2
            else
              match r2 with
              | c3 :: r3 =>
                  let a := code c in
                  let b := code c2 in
                  let d := code c3 in
                  if ((a =? 225) && (b =? 154) && (d =? 128))
                     || ((a =? 226) && (b =? 128) && (128 <=? d) && (d <=? 138))
                     || ((a =? 226) && (b =? 128)
                         && ((d =? 168) || (d =? 169) || (d =? 175)))
                     || ((a =? 226) && (b =? 129) && (d =? 159))
                     || ((a =? 227) && (b =? 128) && (d =? 128))
                     || ((a =? 239) && (b =? 187) && (d =? 191))
                  then skip_ws r3
                  else l
              | [] => l
              end
        | [] => l
        end
  | [] => []
  end.

(** An optional sign: [true] for a leading minus. *)
Definition take_sign (l : list ascii) : bool * list ascii :=
  match l with
  | "-"%char :: r => (true, r)
  | "+"%char :: r => (false, r)
  | _ => (false, l)
  end.

Definition apply_sign (neg : bool) (q : Q) : Q := if neg then - q else q.

(** ** [parseInt(string)] with no radix argument *)

Definition parseInt (s : string) : number :=
  let (neg, l1) := take_sign (skip_ws (chars s)) in
  let (radix, l2) :=
    match l1 with
    | "0"%char :: "x"%char :: r => (16, r)
    | "0"%char :: "X"%char :: r => (16, r)
    | _ => (10, l1)
    end in
  match radix_prefix radix l2 None with
  | Some v => Fin (apply_sign neg (inject_Z v))
  | None => NaN
  end.

(** ** [parseFloat(string)]

    The longest prefix that is a [StrDecimalLiteral]:
    sign, then [Infinity], or digits with an optional fraction and an
    optional exponent. *)

Definition pow10 (e : Z) : Q :=
  if 0 <=? e then inject_Z (10 ^ e) else 1 / inject_Z (10 ^ (- e)).

Fixpoint starts_with (p l : list ascii) : bool :=
  match p, l with
  | [], _ => true
  | a :: p', b :: l' => Ascii.eqb a b && starts_with p' l'
  | _ :: _, [] => false
  end.

(** The exponent part, when it is well formed: [e] or [E], an optional
    sign, at least one digit. *)
Definition exponent_part (l : list ascii) : Z :=
  match l with
  | c :: r =>
      if Ascii.eqb c "e" || Ascii.eqb c "E" then
        let (neg, r1) := take_sign r in
        match fst (span_digits r1) with
        | [] => 0
        | es => if neg then - Z_of_digits es else Z_of_digits es
        end
      else 0
  | [] => 0
  end.

Definition parseFloat (s : string) : number :=
  let (neg, l1) := take_sign (skip_ws (chars s)) in
  if starts_with (chars "Infinity") l1 then (if neg then NInf else PInf)
  else
    let (ip, r1) := span_digits l1 in
    match r1 with
    | "."%char :: r2 =>
        let (fp, r3) := span_digits r2 in
        match ip ++ fp with
        | [] => NaN
        | ds =>
            Fin (apply_sign neg
                   (inject_Z (Z_of_digits ds)
                    * pow10 (exponent_part r3 - Z.of_nat (List.length fp))))
        end
    | _ =>
        match ip with
        | [] => NaN
        | ds =>
            Fin (apply_sign neg
                   (inject_Z (Z_of_digits ds) * pow10 (exponent_part r1)))
        end
    end.

(** ** Printing numbers *)

Definition digit_char (d : Z) : ascii := ascii_of_N (Z.to_N (48 + d)).

(** Decimal digits of a non-negative integer, most significant first;
    [fuel] bounds the number of digits. *)
Fixpoint digits_fuel (fuel : nat) (n : Z) (acc : list ascii) : list ascii :=
  match fuel with
  | O => acc
  | S f =>
      if n <? 10 then digit_char n :: acc
      else digits_fuel f (n / 10) (digit_char (n mod 10) :: acc)
  end.

Definition digits_of_Z (n : Z) : list ascii :=
  digits_fuel (S (Z.to_nat (Z.log2 n))) n [].

(** [String(n)] for an integer [n]. *)
Definition String_of_Z (n : Z) : string :=
  if n <? 0 then String "-" (string_of_list_ascii (digits_of_Z (- n)))
  else string_of_list_ascii (digits_of_Z n).

(** Left-pad with zeros up to [len] characters. *)
Definition pad_zeros (len : nat) (l : list ascii) : list ascii :=
  repeat "0"%char (len - List.length l) ++ l.

(** [x.toFixed(f)] for a finite [x] below 10^21 in absolute value: the
    integer [n] nearest to [x * 10^f] (the larger one on a tie, after the
    sign has been set aside), printed with [f] digits after the point.
    From 10^21 on JavaScript prints the shortest round-trip form instead;
    such a double is an integer, which this function prints in full. *)
Definition toFixed_digits (f : nat) (q : Q) : string :=
  let neg := negb (Qle_bool 0 q) in
  let x := Qabs q in
  let n := Qfloor (x * inject_Z (10 ^ Z.of_nat f) + (1 # 2)) in
  let m := pad_zeros (S f) (digits_of_Z n) in
  let k := (List.length m - f)%nat in
  let body :=
    match f with
    | O => m
    | S _ => firstn k m ++ "."%char :: skipn k m
    end in
  string_of_list_ascii (if neg then "-"%char :: body else body).

Definition toFixed (f : nat) (x : number) : string :=
  match x with
  | NaN => "NaN"
  | PInf => "Infinity"
  | NInf => "-Infinity"
  | Fin q => toFixed_digits f q
  end.

(** ** Calendar and [Date]

    A [Date] holds a time value: milliseconds since 1970-01-01T00:00Z, or
    [NaN] for an Invalid Date (here [None]).  The local time zone is taken
    to be UTC with no daylight saving, so that local calendar fields and
    UTC fields coincide; the range limit of time values (8.64e15 ms) is
    outside the model. *)

Definition msPerDay : Z := 86400000.

Definition Day (t : Z) : Z := t / msPerDay.
Definition TimeWithinDay (t : Z) : Z := t mod msPerDay.

(** Day number (days since 1970-01-01) of the proleptic Gregorian date
    [y]-[m]-[d], months counted from 1. *)
Definition days_from_civil (y m d : Z) : Z :=
  let y' := if m <=? 2 then y - 1 else y in
  let era := y' / 400 in
  let yoe := y' - era * 400 in
  let mp := (m + 9) mod 12 in
  let doy := (153 * mp + 2) / 5 + d - 1 in
  let doe := yoe * 365 + yoe / 4 - yoe / 100 + doy in
  era * 146097 + doe - 719468.

(** Year, month (from 1) and day of the month of a day number. *)
Definition civil_from_days (z : Z) : Z * Z * Z :=
  let z' := z + 719468 in
  let era := z' / 146097 in
  let doe := z' - era * 146097 in
  let yoe := (doe - doe / 1460 + doe / 36524 - doe / 146096) / 365 in
  let doy := doe - (365 * yoe + yoe / 4 - yoe / 100) in
  let mp := (5 * doy + 2) / 153 in
  let d := doy - (153 * mp + 2) / 5 + 1 in
  let m := if mp <? 10 then mp + 3 else mp - 9 in
  let y := yoe + era * 400 in
  (if m <=? 2 then y + 1 else y, m, d).

Definition YearFromTime (t : Z) : Z := fst (fst (civil_from_days (Day t))).
(** Months are counted from 0 by [Date]. *)
Definition MonthFromTime (t : Z) : Z := snd (fst (civil_from_days (Day t))) - 1.
Definition DateFromTime (t : Z) : Z := snd (civil_from_days (Day t)).

(** [MakeDay(year, month, date)]: months and days out of range carry over. *)
Definition MakeDay (year month date : Z) : Z :=
  let ym := year + month / 12 in
  let mn := month mod 12 in
  days_from_civil ym (mn + 1) 1 + date - 1.

Definition MakeDate (day time : Z) : Z := day * msPerDay + time.

Definition isLeapYear (y : Z) : bool :=
  ((y mod 4 =? 0) && negb (y mod 100 =? 0)) || (y mod 400 =? 0).

(** Days of month [m] (from 1) of year [y]. *)
Definition daysInMonth (y m : Z) : Z :=
  if m =? 2 then (if isLeapYear y then 29 else 28)
  else if (m =? 4) || (m =? 6) || (m =? 9) || (m =? 11) then 30
  else 31.

(** The [Date] methods the sources call, on a valid time value. *)
Definition getFullYear (t : Z) : Z := YearFromTime t.
Definition getMonth (t : Z) : Z := MonthFromTime t.
Definition getDate (t : Z) : Z := DateFromTime t.

Definition setDate (t dt : Z) : Z :=
  MakeDate (MakeDay (YearFromTime t) (MonthFromTime t) dt) (TimeWithinDay t).

Definition setMonth (t m dt : Z) : Z :=
  MakeDate (MakeDay (YearFromTime t) m dt) (TimeWithinDay t).

Definition setFullYear1 (t y : Z) : Z :=
  MakeDate (MakeDay y (MonthFromTime t) (DateFromTime t)) (TimeWithinDay t).

Definition setFullYear3 (t y m dt : Z) : Z :=
  MakeDate (MakeDay y m dt) (TimeWithinDay t).

(** *** date-fns: [addMonths], [subMonths] *)

Definition addMonths (date amount : Z) : Z :=
  if amount =? 0 then date
  else
    let dayOfMonth := getDate date in
    let endOfDesiredMonth := setMonth date (getMonth date + amount + 1) 0 in
    let daysInMonth := getDate endOfDesiredMonth in
    if daysInMonth <=? dayOfMonth then endOfDesiredMonth
    else setFullYear3 date (getFullYear endOfDesiredMonth)
           (getMonth endOfDesiredMonth) dayOfMonth.

Definition subMonths (date amount : Z) : Z := addMonths date (- amount).

(** *** date-fns: [parse(s, "yyyy-MM-dd", new Date())]

    Each numeric token takes between one digit and its own width in digits
    (the library's [parseNDigits]); the separators must be there; what is
    left over may only be white space.  The year must be positive, the
    month between 1 and 12, the day within the month.  The result is
    midnight of that day, or an Invalid Date ([None]). *)

Fixpoint take_upto_digits (n : nat) (l : list ascii) : list ascii * list ascii :=
  match n, l with
  | S n', c :: r =>
      if is_digit c
      then let (ds, rest) := take_upto_digits n' r in (c :: ds, rest)
      else ([], l)
  | _, _ => ([], l)
  end.

Definition parse_token (n : nat) (l : list ascii) : option (Z * list ascii) :=
  match take_upto_digits n l with
  | ([], _) => None
  | (ds, rest) => Some (Z_of_digits ds, rest)
  end.

Definition parse_literal (c : ascii) (l : list ascii) : option (list ascii) :=
  match l with
  | c' :: r => if Ascii.eqb c c' then Some r else None
  | [] => None
  end.

Definition valid_ymd (y m d : Z) : bool :=
  (0 <? y) && (1 <=? m) && (m <=? 12) && (1 <=? d) && (d <=? daysInMonth y m).

Definition parse (s : string) : option Z :=
  match parse_token 4 (chars s) with
  | Some (y, r1) =>
      match parse_literal "-" r1 with
      | Some r2 =>
          match parse_token 2 r2 with
          | Some (m, r3) =>
              match parse_literal "-" r3 with
              | Some r4 =>
                  match parse_token 2 r4 with
                  | Some (d, r5) =>
                      match skip_ws r5 with
                      | [] =>
                          if valid_ymd y m d
                          then Some (MakeDate (days_from_civil y m d) 0)
                          else None
                      | _ :: _ => None
                      end
                  | None => None
                  end
              | None => None
              end
          | None => None
          end
      | None => None
      end
  | None => None
  end.

(** *** [new Date(s).getTime()]

    ECMAScript fixes the reading of the date-only form [YYYY-MM-DD]
    (midnight UTC of a legal calendar day) and leaves every other string to
    the engine.  The model reads the date-only form and answers [NaN]
    ([None]) for everything else. *)

Definition exact_digits (n : nat) (l : list ascii) : option (Z * list ascii) :=
  let ds := firstn n l in
  if (List.length ds =? n)%nat && forallb is_digit ds
  then Some (Z_of_digits ds, skipn n l)
  else None.

Definition Date_getTime (s : string) : option Z :=
  match exact_digits 4 (chars s) with
  | Some (y, r1) =>
      match parse_literal "-" r1 with
      | Some r2 =>
          match exact_digits 2 r2 with
          | Some (m, r3) =>
              match parse_literal "-" r3 with
              | Some r4 =>
                  match exact_digits 2 r4 with
                  | Some (d, []) =>
                      if (1 <=? m) && (m <=? 12) && (1 <=? d)
                         && (d <=? daysInMonth y m)
                      then Some (MakeDate (days_from_civil y m d) 0)
                      else None
                  | _ => None
                  end
              | None => None
              end
          | None => None
          end
      | None => None
      end
  | None => None
  end.

(** *** date-fns: [format(date, "MMM d", { locale: zhCN })]

    An Invalid Date makes [format] throw a [RangeError].  The abbreviated
    month of the zhCN locale is the month number followed by the month
    character. *)

Inductive exn : Type :=
| RangeError
| TypeError
| SyntaxError.

Inductive result (A : Type) : Type :=
| Ok (a : A)
| Throw (e : exn).
Arguments Ok {A} a.
Arguments Throw {A} e.

Definition bind {A B : Type} (r : result A) (k : A -> result B) : result B :=
  match r with
  | Ok a => k a
  | Throw e => Throw e
  end.

Notation "x <- r ;; k" := (bind r (fun x => k))
  (at level 61, r at next level, right associativity).

Definition format_MMM_d (date : option Z) : result string :=
  match date with
  | None => Throw RangeError
  | Some t =>
      Ok (String_of_Z (getMonth t + 1) ++ "月 " ++ String_of_Z (getDate t))%string
  end.

(** [array.map(f)] for a callback that may throw: the first exception
    aborts the traversal. *)
Fixpoint map_result {A B : Type} (f : A -> result B) (l : list A) : result (list B) :=
  match l with
  | [] => Ok []
  | a :: r =>
      b <- f a ;;
      bs <- map_result f r ;;
      Ok (b :: bs)
  end.

(** ** The dashboard: [HealthDashboard] *)

(** [interface HealthDataPoint]: the three readings are optional strings. *)
Record HealthDataPoint : Type := {
  date : string;
  steps : option string;
  weight : option string;
  heartRate : option string
}.

(** [activeTab]. *)
Inductive Tab : Type :=
| TabSteps
| TabWeight
| TabHeartRate.

(** [TIME_PERIODS]. *)
Definition WEEK : string := "7D".
Definition MONTH : string := "1M".
Definition THREE_MONTHS : string := "3M".
Definition SIX_MONTHS : string := "6M".
Definition YEAR : string := "1Y".
Definition ALL : string := "ALL".

(** [value || "0"] on an optional string: [undefined] and the empty string
    are falsy. *)
Definition or_zero (v : option string) : string :=
  match v with
  | None => "0"
  | Some EmptyString => "0"
  | Some s => s
  end.

(** [itemDate >= cutoffDate] on two [Date]s: false for an Invalid Date. *)
Definition date_ge (itemDate : option Z) (cutoffDate : Z) : bool :=
  match itemDate with
  | Some t => cutoffDate <=? t
  | None => false
  end.

(** The [switch (timePeriod)] of [filteredData]: the cutoff of a bounded
    period, [None] for the [default] branch. *)
Definition cutoffDate (now : Z) (timePeriod : string) : option Z :=
  if String.eqb timePeriod WEEK then Some (setDate now (getDate now - 7))
  else if String.eqb timePeriod MONTH then Some (subMonths now 1)
  else if String.eqb timePeriod THREE_MONTHS then Some (subMonths now 3)
  else if String.eqb timePeriod SIX_MONTHS then Some (subMonths now 6)
  else if String.eqb timePeriod YEAR
       then Some (setFullYear1 now (getFullYear now - 1))
  else None.

(** [filteredData], with the clock reading made explicit: every
    [new Date()] of one evaluation returns [now]. *)
Definition filteredData (now : Z) (timePeriod : string)
    (healthData : list HealthDataPoint) : list HealthDataPoint :=
  match healthData with
  | [] => []
  | _ :: _ =>
      match cutoffDate now timePeriod with
      | Some cutoff =>
          filter (fun item => date_ge (parse (date item)) cutoff) healthData
      | None => healthData
      end
  end.

(** *** [Array.prototype.sort]

    The sort is stable; a comparator result of [NaN] counts as 0.  For a
    consistent comparator the result is the one stable ordering, which
    insertion computes; for an inconsistent one the standard leaves the
    order to the engine. *)

Section Sort.
Context {A : Type}.
Variable compareFn : A -> A -> option Z.

(** [compareFn(a, b) > 0]. *)
Definition after (a b : A) : bool :=
  match compareFn a b with
  | Some v => 0 <? v
  | None => false
  end.

Fixpoint sort_insert (x : A) (l : list A) : list A :=
  match l with
  | [] => [x]
  | y :: r => if after x y then y :: sort_insert x r else x :: y :: r
  end.

Fixpoint sort (l : list A) : list A :=
  match l with
  | [] => []
  | x :: r => sort_insert x (sort r)
  end.
End Sort.






(** The comparator of [chartData]:
    [new Date(a.date).getTime() - new Date(b.date).getTime()]. *)
Definition byDate (a b : HealthDataPoint) : option Z :=
  match Date_getTime (date a), Date_getTime (date b) with
  | Some ta, Some tb => Some (ta - tb)
  | _, _ => None
  end.


(** The value of [sortedData]. *)
Definition sortedData (filtered : list HealthDataPoint) : list HealthDataPoint :=
  sort byDate filtered.

(** *** [chartData]

    Of a dataset the label, the data and the two colours are kept; the
    remaining properties are constants of the styling. *)

Record Dataset : Type := {
  label : string;
  data : list number;
  borderColor : string;
  backgroundColor : string
}.

Record ChartDataT : Type := {
  labels : list string;
  datasets : list Dataset
}.

Definition stepsOf (item : HealthDataPoint) : number :=
  parseInt (or_zero (steps item)).
Definition weightOf (item : HealthDataPoint) : number :=
  parseFloat (or_zero (weight item)).
Definition heartRateOf (item : HealthDataPoint) : number :=
  parseFloat (or_zero (heartRate item)).

(** The reading that [activeTab] selects. *)
Definition metricOf (activeTab : Tab) (item : HealthDataPoint) : number :=
  match activeTab with
  | TabSteps => stepsOf item
  | TabWeight => weightOf item
  | TabHeartRate => heartRateOf item
  end.

Definition dataset_of (activeTab : Tab) (sorted : list HealthDataPoint) : Dataset :=
  match activeTab with
  | TabSteps =>
      {| label := "步数"; data := map stepsOf sorted;
         borderColor := "rgb(52, 199, 89)";
         backgroundColor := "rgba(52, 199, 89, 0.15)" |}
  | TabWeight =>
      {| label := "体重 (kg)"; data := map weightOf sorted;
         borderColor := "rgb(0, 122, 255)";
         backgroundColor := "rgba(0, 122, 255, 0.15)" |}
  | TabHeartRate =>
      {| label := "心率 (BPM)"; data := map heartRateOf sorted;
         borderColor := "rgb(255, 59, 48)";
         backgroundColor := "rgba(255, 59, 48, 0.15)" |}
  end.

(** [chartData]: [null] ([None]) for an empty selection; the labels are
    computed first, and [format] may throw. *)
Definition chartData (activeTab : Tab) (filtered : list HealthDataPoint)
    : result (option ChartDataT) :=
  match filtered with
  | [] => Ok None
  | _ :: _ =>
      let sorted := sortedData filtered in
      ls <- map_result (fun item => format_MMM_d (parse (date item))) sorted ;;
      Ok (Some {| labels := ls; datasets := [dataset_of activeTab sorted] |})
  end.

(** The [data] property handed to the chart:
    [chartData || { labels: [], datasets: [] }]. *)
Definition chartProp (activeTab : Tab) (filtered : list HealthDataPoint)
    : result ChartDataT :=
  c <- chartData activeTab filtered ;;
  Ok match c with
     | Some d => d
     | None => {| labels := []; datasets := [] |}
     end.

(** The values the chart plots: the [data] of every dataset handed over. *)
Definition seriesValues (c : ChartDataT) : list number :=
  List.concat (map data (datasets c)).

(** *** The summary: [getMetricInfo], [getMinMaxValues], [isDataEmpty] *)

(** [.filter((v) => v > 0)]. *)
Definition positive_only (values : list number) : list number :=
  filter (fun v => num_gt v (Fin 0)) values.

(** [values.reduce((sum, val) => sum + val, 0)]. *)
Definition sum_values (values : list number) : number :=
  fold_left num_add values (Fin 0).

Record MetricInfo : Type := {
  unit : string;
  average : number
}.

(** [parseFloat(x.toFixed(1))]. *)
Definition round1 (x : number) : number := parseFloat (toFixed 1 x).

Definition getMetricInfo (activeTab : Tab) (filtered : list HealthDataPoint)
    : MetricInfo :=
  match filtered with
  | [] => {| unit := ""; average := Fin 0 |}
  | _ :: _ =>
      match activeTab with
      | TabSteps =>
          let stepsValues := positive_only (map stepsOf filtered) in
          {| unit := "步";
             average :=
               Math_round
                 (num_div_len (sum_values stepsValues)
                    (match List.length stepsValues with O => 1%nat | n => n end)) |}
      | TabWeight =>
          let weightValues := positive_only (map weightOf filtered) in
          {| unit := "kg";
             average :=
               match List.length weightValues with
               | O => Fin 0
               | n => round1 (num_div_len (sum_values weightValues) n)
               end |}
      | TabHeartRate =>
          let hrValues := positive_only (map heartRateOf filtered) in
          {| unit := "BPM";
             average :=
               match List.length hrValues with
               | O => Fin 0
               | n => Math_round (num_div_len (sum_values hrValues) n)
               end |}
      end
  end.

Record MinMax : Type := {
  min : number;
  max : number
}.

Definition getMinMaxValues (activeTab : Tab) (filtered : list HealthDataPoint)
    : MinMax :=
  match filtered with
  | [] => {| min := Fin 0; max := Fin 0 |}
  | _ :: _ =>
      let values := positive_only (map (metricOf activeTab) filtered) in
      {| min := match values with [] => Fin 0 | _ => Math_min values end;
         max := match values with [] => Fin 0 | _ => Math_max values end |}
  end.

Definition isDataEmpty (activeTab : Tab) (filtered : list HealthDataPoint) : bool :=
  match filtered with
  | [] => true
  | _ :: _ =>
      negb (existsb (fun d => num_gt (metricOf activeTab d) (Fin 0)) filtered)
  end.

(** What a metric card shows.  The number of a shown reading is kept as a
    number: its locale formatting is the engine's. *)
Inductive CardText : Type :=
| CardLoading
| CardNoData
| CardValue (value : number) (unit_ : string).

Definition card (loading : bool) (activeTab : Tab)
    (filtered : list HealthDataPoint) (value : number) : CardText :=
  if loading then CardLoading
  else if isDataEmpty activeTab filtered then CardNoData
  else CardValue value (unit (getMetricInfo activeTab filtered)).

Definition averageCard (loading : bool) (activeTab : Tab)
    (filtered : list HealthDataPoint) : CardText :=
  card loading activeTab filtered (average (getMetricInfo activeTab filtered)).

Definition minCard (loading : bool) (activeTab : Tab)
    (filtered : list HealthDataPoint) : CardText :=
  card loading activeTab filtered (min (getMinMaxValues activeTab filtered)).

Definition maxCard (loading : bool) (activeTab : Tab)
    (filtered : list HealthDataPoint) : CardText :=
  card loading activeTab filtered (max (getMinMaxValues activeTab filtered)).

(** ** The route handlers: [app/api/health-data/route.ts] *)

(** What the JSON file holds, as the handlers read it: an array of data
    points, or text that [JSON.parse] rejects. *)
Inductive Content (A : Type) : Type :=
| Records (items : list A)
| Garbled.
Arguments Records {A} items.
Arguments Garbled {A}.

Inductive Body (A : Type) : Type :=
| Message (message : string)
| Failure (message : string) (error : exn)
| Payload (healthData : list A).
Arguments Message {A} message.
Arguments Failure {A} message error.
Arguments Payload {A} healthData.

Record Response (A : Type) : Type := {
  status : Z;
  body : Body A
}.
Arguments status {A} r.
Arguments body {A} r.

(** Handlers run against a world [W] and may throw: the world a throwing
    step leaves behind is kept, as the file system keeps what was written
    before the exception. *)
Definition io (W A : Type) : Type := W -> result A * W.

Definition ret {W A : Type} (a : A) : io W A := fun w => (Ok a, w).

Definition raise {W A : Type} (e : exn) : io W A := fun w => (Throw e, w).

Definition io_bind {W A B : Type} (m : io W A) (k : A -> io W B) : io W B :=
  fun w =>
    match m w with
    | (Ok a, w') => k a w'
    | (Throw e, w') => (Throw e, w')
    end.

Notation "x <~ m ;; k" := (io_bind m (fun x => k))
  (at level 61, m at next level, right associativity).

(** [try { body } catch (error) { handler(error) }]. *)
Definition try_catch {W A : Type} (m : io W A) (handler : exn -> A) : W -> A * W :=
  fun w =>
    match m w with
    | (Ok a, w') => (a, w')
    | (Throw e, w') => (handler e, w')
    end.

(** [JSON.parse(fs.readFileSync(filePath))] when the file exists, the
    empty array otherwise. *)
Definition read_existing {A : Type} (file : option (Content A)) : result (list A) :=
  match file with
  | None => Ok []
  | Some (Records items) => Ok items
  | Some Garbled => Throw SyntaxError
  end.

Definition saved {A : Type} : Response A :=
  {| status := 200; body := Message "Health data saved successfully!" |}.

Definition save_failed {A : Type} (e : exn) : Response A :=
  {| status := 500; body := Failure "Failed to save health data." e |}.

Definition read_failed {A : Type} (e : exn) : Response A :=
  {| status := 500; body := Failure "Failed to read health data." e |}.

(** [await req.json()]: [None] stands for a body that is not JSON. *)
Definition req_json {W A : Type} (req : option A) : io W A :=
  match req with
  | Some v => ret v
  | None => raise SyntaxError
  end.

(** *** The version that keeps the file under [data/] ([POST] only).
    Its data points carry a [timestamp]; the handler never looks inside
    them, so the point type is left open. *)
Module RouteDataDir.
Section Handlers.
Variable A : Type.

Record World : Type := {
  dataDir : bool;
  dataFile : option (Content A)
}.

(** [if (!fs.existsSync(dataDir)) fs.mkdirSync(dataDir, ...)]. *)
Definition ensure_dataDir : io World Datatypes.unit :=
  fun w =>
    (Ok tt,
     if dataDir w then w else {| dataDir := true; dataFile := None |}).

Definition read_file : io World (list A) :=
  fun w => (read_existing (dataFile w), w).

Definition writeFileSync (items : list A) : io World Datatypes.unit :=
  fun w => (Ok tt, {| dataDir := dataDir w; dataFile := Some (Records items) |}).

Definition POST (req : option A) : World -> Response A * World :=
  try_catch
    (healthDataPoint <~ req_json req ;;
     _ <~ ensure_dataDir ;;
     existingData <~ read_file ;;
     _ <~ writeFileSync (existingData ++ [healthDataPoint]) ;;
     ret saved)
    save_failed.
End Handlers.
End RouteDataDir.

(** *** The version that keeps [health-data.json] in the working
    directory ([POST], [GET], [gen], [generateTestData]). *)
Module Route.
Section Handlers.
(** The values successive calls of [Math.random()] return. *)
Variable random : nat -> Q.

Record World : Type := {
  file : option (Content HealthDataPoint);
  draws : nat
}.

Definition Math_random : io World Q :=
  fun w => (Ok (random (draws w)), {| file := file w; draws := S (draws w) |}).

Definition read_file : io World (list HealthDataPoint) :=
  fun w => (read_existing (file w), w).

Definition writeFileSync (items : list HealthDataPoint) : io World Datatypes.unit :=
  fun w => (Ok tt, {| file := Some (Records items); draws := draws w |}).

(** [currentDate.toISOString().slice(0, 10)] for a year from 0 to 9999. *)
Definition isoDate (t : Z) : string :=
  string_of_list_ascii
    (pad_zeros 4 (digits_of_Z (YearFromTime t))
     ++ "-"%char :: pad_zeros 2 (digits_of_Z (MonthFromTime t + 1))
     ++ "-"%char :: pad_zeros 2 (digits_of_Z (DateFromTime t))).

(** The [for] loop of [generateTestData]: [n] rounds are left, [i] is the
    loop counter, [data] what has been pushed so far. *)
Fixpoint generate_loop (n : nat) (i : Z) (currentDate : Z)
    (data : list HealthDataPoint) : io World (list HealthDataPoint) :=
  match n with
  | O => ret data
  | S n' =>
      r1 <~ Math_random ;;
      let steps_ := Qfloor (r1 * inject_Z (12000 - 5000 + 1)) + 5000 in
      r2 <~ Math_random ;;
      let weight_ :=
        toFixed 2 (Fin (75 - inject_Z i * (1 # 10) + r2 * 2 - 1)) in
      let dataPoint :=
        {| date := isoDate currentDate;
           steps := Some (String_of_Z steps_);
           weight := Some weight_;
           heartRate := None |} in
      generate_loop n' (i + 1)
        (setDate currentDate (getDate currentDate + 1))
        (data ++ [dataPoint])
  end.

Definition generateTestData (startDate : Z) (days : nat)
    : io World (list HealthDataPoint) :=
  generate_loop days 0 startDate [].

(** [gen]: thirty days of test data from 2025-01-02 replace the file. *)
Definition gen : io World Datatypes.unit :=
  match Date_getTime "2025-01-02" with
  | Some startDate =>
      testData <~ generateTestData startDate 30 ;;
      writeFileSync testData
  | None => raise RangeError
  end.

Definition POST (req : option HealthDataPoint)
    : World -> Response HealthDataPoint * World :=
  try_catch
    (healthDataPoint <~ req_json req ;;
     existingData <~ read_file ;;
     _ <~ writeFileSync (existingData ++ [healthDataPoint]) ;;
     ret saved)
    save_failed.

Definition GET : World -> Response HealthDataPoint * World :=
  try_catch
    (_ <~ gen ;;
     healthData <~ read_file ;;
     ret {| status := 200; body := Payload healthData |})
    read_failed.
End Handlers.
End Route.

(** ** Notions the statements below are phrased with *)

(** The string field that [activeTab] selects, and the parser the
    dashboard applies to it. *)
Definition field (activeTab : Tab) (item : HealthDataPoint) : option string :=
  match activeTab with
  | TabSteps => steps item
  | TabWeight => weight item
  | TabHeartRate => heartRate item
  end.

Definition parser (activeTab : Tab) : string -> number :=
  match activeTab with
  | TabSteps => parseInt
  | TabWeight => parseFloat
  | TabHeartRate => parseFloat
  end.

(** A string with nothing numeric at its head: after white space and an
    optional sign there is no digit, no point followed by a digit, and not
    the word [Infinity]. *)
Definition non_numeric (s : string) : bool :=
  let l := snd (take_sign (skip_ws (chars s))) in
  match l with
  | c :: r =>
      negb (is_digit c)
      && negb (Ascii.eqb c "."
               && match r with d :: _ => is_digit d | [] => false end)
      && negb (starts_with (chars "Infinity") l)
  | [] => true
  end.

(** The eligible values of a selection: the readings that are present and
    strictly greater than zero. *)
Definition eligible_values (activeTab : Tab) (filtered : list HealthDataPoint)
    : list number :=
  flat_map
    (fun item =>
       match field activeTab item with
       | Some s =>
           if num_gt (parser activeTab s) (Fin 0)
           then [parser activeTab s] else []
       | None => []
       end)
    filtered.






(** Order of two data points by the time value of their dates. *)
Definition date_le (a b : HealthDataPoint) : Prop :=
  match Date_getTime (date a), Date_getTime (date b) with
  | Some ta, Some tb => ta <= tb
  | _, _ => False
  end.

(** A data point whose date string [Date] can read. *)
Definition dated (item : HealthDataPoint) : Prop :=
  Date_getTime (date item) <> None.


(** Calendar subtraction of [n] months from the day [y]-[m]-[d]: the month
    moves back [n] places through the years, and the day of the month is
    kept unless the target month is shorter, in which case it is that
    month's last day. *)
Definition months_before (n : Z) (ymd : Z * Z * Z) : Z * Z * Z :=
  let '(y, m, d) := ymd in
  let idx := y * 12 + (m - 1) - n in
  let y' := idx / 12 in
  let m' := idx mod 12 + 1 in
  (y', m', Z.min d (daysInMonth y' m')).

(** The instant with calendar day [ymd] and the time of day of [t]. *)
Definition at_day (ymd : Z * Z * Z) (t : Z) : Z :=
  let '(y, m, d) := ymd in
  MakeDate (days_from_civil y m d) (TimeWithinDay t).



Definition jan1 : HealthDataPoint :=
  {| date := "2025-01-01"; steps := Some "5000"%string; weight := Some "70.0"%string;
     heartRate := None |}.

Definition jan2 : HealthDataPoint :=
  {| date := "2025-01-02"; steps := Some "7000"%string; weight := None;
     heartRate := None |}.

Definition garbled_steps : HealthDataPoint :=
  {| date := "2025-01-03"; steps := Some "abc"%string; weight := None;
     heartRate := None |}.




Definition mar1 : HealthDataPoint :=
  {| date := "2025-03-01"; steps := None; weight := None; heartRate := None |}.

Definition mar10 : HealthDataPoint :=
  {| date := "2025-03-10"; steps := None; weight := None; heartRate := None |}.

(** ** Notions of the further properties *)

(** Day number of the first day of the month with index [idx], the index
    of month [m] (from 1) of year [y] being [y * 12 + (m - 1)]. *)
Definition first_of_month (idx : Z) : Z :=
  days_from_civil (idx / 12) (idx mod 12 + 1) 1.

(** Length of the month with index [idx]. *)
Definition month_length (idx : Z) : Z :=
  daysInMonth (idx / 12) (idx mod 12 + 1).

(** Index of the month of the instant [t]. *)
Definition month_index (t : Z) : Z := getFullYear t * 12 + getMonth t.

(** [a <= b] of JavaScript on numbers: false as soon as one side is
    [NaN]. *)
Definition num_le (a b : number) : Prop :=
  match a, b with
  | NaN, _ | _, NaN => False
  | NInf, _ => True
  | _, PInf => True
  | Fin p, Fin q => (p <= q)%Q
  | _, _ => False
  end.

(** *** [AppleStyleChart] and the chart section of the dashboard

    What the component renders under its header (title and subtitle, the
    same in the three cases, are left out): the spinner, the empty state,
    or the line chart of the data handed over. *)
Inductive ChartView : Type :=
| ViewLoading
| ViewEmpty
| ViewLine (data_ : ChartDataT).

Definition AppleStyleChart (data_ : ChartDataT) (loading isEmpty : bool)
    : ChartView :=
  if loading then ViewLoading
  else if isEmpty then ViewEmpty
  else ViewLine data_.

(** [<AppleStyleChart data={chartData || ...} loading={loading}
    isEmpty={isDataEmpty} />]. *)
Definition chartSection (loading : bool) (activeTab : Tab)
    (filtered : list HealthDataPoint) : result ChartView :=
  d <- chartProp activeTab filtered ;;
  Ok (AppleStyleChart d loading (isDataEmpty activeTab filtered)).

(** ** The first page: [HomePage] of [app/page.tsx] *)

Module HomePage.

Record Dataset : Type := {
  label : string;
  data : list number;
  borderColor : string
}.

Record ChartDataProps : Type := {
  labels : list string;
  datasets : list Dataset
}.

(** date-fns: [format(date, 'yyyy-MM-dd')] for a year from 1 to 9999. *)
Definition format_yyyy_MM_dd (t : Z) : string :=
  string_of_list_ascii
    (pad_zeros 4 (digits_of_Z (getFullYear t))
     ++ "-"%char :: pad_zeros 2 (digits_of_Z (getMonth t + 1))
     ++ "-"%char :: pad_zeros 2 (digits_of_Z (getDate t))).

(** The label of a data point: the callback of [labels]. *)
Definition dateLabel (item : HealthDataPoint) : string :=
  match parse (date item) with
  | None => "Invalid Date"
  | Some t => format_yyyy_MM_dd t
  end.

Definition stepData (healthData : list HealthDataPoint) : ChartDataProps :=
  {| labels := map dateLabel healthData;
     datasets :=
       [{| label := "步数";
           data := map (fun item => parseInt (or_zero (steps item))) healthData;
           borderColor := "rgb(75, 192, 192)" |}] |}.

Definition weightData (healthData : list HealthDataPoint) : ChartDataProps :=
  {| labels := map dateLabel healthData;
     datasets :=
       [{| label := "体重";
           data := map (fun item => parseFloat (or_zero (weight item))) healthData;
           borderColor := "rgb(153, 102, 255)" |}] |}.

(** What a section of the page shows: the line chart or a text. *)
Inductive Block : Type :=
| Line (data_ : ChartDataProps)
| Text (text : string).

(** [d.datasets[0].data.length]. *)
Definition firstDataLength (d : ChartDataProps) : nat :=
  match datasets d with
  | ds :: _ => List.length (data ds)
  | [] => O
  end.

Definition stepsBlock (healthData : list HealthDataPoint) : Block :=
  if (0 <? List.length healthData)%nat
     && (0 <? firstDataLength (stepData healthData))%nat
  then Line (stepData healthData)
  else Text "没有步数数据".

Definition weightBlock (healthData : list HealthDataPoint) : Block :=
  if (0 <? List.length healthData)%nat
     && (0 <? firstDataLength (weightData healthData))%nat
  then Line (weightData healthData)
  else Text "没有体重数据".

End HomePage.

(** Rounding to [f] decimal places, halves upwards. *)
Definition round_places (f : nat) (q : Q) : Q :=
  (inject_Z (Qfloor (q * inject_Z (10 ^ Z.of_nat f) + (1 # 2)))
   / inject_Z (10 ^ Z.of_nat f))%Q.

(** The data point that [generateTestData] pushes in round [k] (from 0),
    the first draw of the run being number [draws0]. *)
Definition testPoint (random : nat -> Q) (startDate : Z) (draws0 k : nat)
    : HealthDataPoint :=
  {| date := Route.isoDate (startDate + Z.of_nat k * msPerDay);
     steps :=
       Some (String_of_Z
               (Qfloor (random (draws0 + 2 * k)%nat * inject_Z (12000 - 5000 + 1))
                + 5000));
     weight :=
       Some (toFixed 2
               (Fin (75 - inject_Z (Z.of_nat k) * (1 # 10)
                     + random (S (draws0 + 2 * k)) * 2 - 1)));
     heartRate := None |}.



(** * Properties *)

(** ** The route handlers *)

Lemma generate_loop_length random n :
  forall i currentDate data w,
  exists testData,
    Route.generate_loop random n i currentDate data w
    = (Ok testData,
       {| Route.file := Route.file w;
          Route.draws := (Route.draws w + 2 * n)%nat |})
    /\ List.length testData = (List.length data + n)%nat.
Proof.
  induction n as [|n IH]; intros i currentDate data w; simpl.
  - exists data. split.
    + unfold ret. destruct w as [f d]. simpl. now rewrite Nat.add_0_r.
    + now rewrite Nat.add_0_r.
  - unfold io_bind at 1. unfold Route.Math_random at 1.
    unfold io_bind at 1. unfold Route.Math_random at 1. simpl.
    match goal with
    | |- context [Route.generate_loop random n ?i' ?c' ?d' ?w'] =>
        destruct (IH i' c' d' w') as (testData & Hrun & Hlen)
    end.
    exists testData. split.
    + rewrite Hrun. simpl. f_equal. f_equal. lia.
    + rewrite Hlen, length_app. simpl. lia.
Qed.

Lemma gen_writes_thirty random w :
  exists testData,
    Route.gen random w
    = (Ok tt,
       {| Route.file := Some (Records testData);
          Route.draws := (Route.draws w + 60)%nat |})
    /\ List.length testData = 30%nat.
Proof.
  unfold Route.gen.
  change (Date_getTime "2025-01-02") with (Some 1735776000000).
  unfold Route.generateTestData, io_bind.
  destruct (generate_loop_length random 30 0 1735776000000 [] w)
    as (testData & Hrun & Hlen).
  exists testData. split; [|exact Hlen].
  rewrite Hrun. reflexivity.
Qed.

(** [GET] answers with thirty generated data points and leaves them in the
    file, whatever the file held. *)
Lemma GET_regenerates random w :
  exists testData,
    List.length testData = 30%nat
    /\ Route.GET random w
       = ({| status := 200; body := Payload testData |},
          {| Route.file := Some (Records testData);
             Route.draws := (Route.draws w + 60)%nat |}).
Proof.
  destruct (gen_writes_thirty random w) as (testData & Hgen & Hlen).
  exists testData. split; [exact Hlen|].
  unfold Route.GET, try_catch, io_bind. rewrite Hgen. reflexivity.
Qed.



(** C2 (the code departs from it).  The store holds one record.  [GET]
    first runs [gen], which replaces the file by thirty generated data
    points, and then answers with those: the stored record is gone from
    the file and is not what the caller receives, whatever values
    [Math.random] returns. *)
Theorem GET_replaces_the_stored_collection :
  forall random : nat -> Q,
    let w := {| Route.file := Some (Records [jan1]); Route.draws := 0 |} in
    Route.file (snd (Route.GET random w)) <> Route.file w
    /\ body (fst (Route.GET random w)) <> Payload [jan1]
    /\ status (fst (Route.GET random w)) = 200.
Proof.
  intros random w.
  destruct (GET_regenerates random w) as (testData & Hlen & Hget).
  rewrite Hget. simpl. repeat split.
  - intros H. injection H as H. subst testData. discriminate Hlen.
  - intros H. injection H as H. subst testData. discriminate Hlen.
Qed.

(** ** Parsing of readings *)

(** Neither parser reads a number in a non-numeric string. *)
Lemma non_numeric_parseInt s : non_numeric s = true -> parseInt s = NaN.
Proof.
  unfold non_numeric, parseInt.
  destruct (take_sign (skip_ws (chars s))) as [neg l]. simpl.
  destruct l as [|c r]; [reflexivity|].
  intros H. apply andb_prop in H as [H _]. apply andb_prop in H as [Hd _].
  apply negb_true_iff in Hd.
  assert (Hrd : radix_digit 10 c = None).
  { unfold radix_digit. unfold is_digit in Hd. rewrite Hd.
    destruct ((97 <=? code c) && (code c <=? 102)) eqn:E1.
    - apply andb_prop in E1 as [E1 E2].
      apply Z.leb_le in E1. apply Z.leb_le in E2.
      destruct (code c - 87 <? 10) eqn:E3; [apply Z.ltb_lt in E3; lia|reflexivity].
    - destruct ((65 <=? code c) && (code c <=? 70)) eqn:E2; [|reflexivity].
      apply andb_prop in E2 as [E2 E3].
      apply Z.leb_le in E2. apply Z.leb_le in E3.
      destruct (code c - 55 <? 10) eqn:E4; [apply Z.ltb_lt in E4; lia|reflexivity]. }
  assert (Hc0 : c <> "0"%char).
  { intros ->. discriminate Hd. }
  assert (Hsel : match c :: r with
                 | "0"%char :: "x"%char :: r0 => (16, r0)
                 | "0"%char :: "X"%char :: r0 => (16, r0)
                 | _ => (10, c :: r)
                 end = (10, c :: r)).
  { destruct c as [[] [] [] [] [] [] [] []]; try reflexivity.
    exfalso. apply Hc0. reflexivity. }
  rewrite Hsel. simpl. rewrite Hrd. reflexivity.
Qed.

Lemma span_digits_non_digit c r :
  is_digit c = false -> span_digits (c :: r) = ([], c :: r).
Proof. intros H. simpl. rewrite H. reflexivity. Qed.

Lemma non_numeric_parseFloat s : non_numeric s = true -> parseFloat s = NaN.
Proof.
  unfold non_numeric, parseFloat.
  destruct (take_sign (skip_ws (chars s))) as [neg l]. simpl snd.
  destruct l as [|c r].
  - intros _. reflexivity.
  - intros H. apply andb_prop in H as [H Hinf]. apply andb_prop in H as [Hd Hpt].
    apply negb_true_iff in Hd. apply negb_true_iff in Hpt.
    apply negb_true_iff in Hinf. rewrite Hinf.
    rewrite (span_digits_non_digit c r Hd).
    destruct (Ascii.eqb c ".") eqn:Edot.
    + apply Ascii.eqb_eq in Edot. subst c. simpl in Hpt.
      destruct r as [|d r']; [reflexivity|].
      rewrite (span_digits_non_digit d r' Hpt). reflexivity.
    + destruct c as [[] [] [] [] [] [] [] []]; try reflexivity.
      discriminate Edot.
Qed.

(** A present, non-numeric reading is read as [NaN], whatever the tab. *)
Lemma non_numeric_metricOf tab item s :
  field tab item = Some s -> non_numeric s = true -> s <> EmptyString ->
  metricOf tab item = NaN.
Proof.
  intros Hf Hn Hne.
  assert (Hz : or_zero (Some s) = s) by (destruct s; [contradiction|reflexivity]).
  destruct tab; simpl in Hf; unfold metricOf, stepsOf, weightOf, heartRateOf;
    rewrite Hf, Hz;
    [apply non_numeric_parseInt | apply non_numeric_parseFloat
     | apply non_numeric_parseFloat]; exact Hn.
Qed.

(** ** Printing and reading back decimal digits *)

Lemma digit_char_spec d :
  0 <= d < 10 -> is_digit (digit_char d) = true /\ digit_val (digit_char d) = d.
Proof.
  intros H.
  assert (d = 0 \/ d = 1 \/ d = 2 \/ d = 3 \/ d = 4 \/ d = 5 \/ d = 6
          \/ d = 7 \/ d = 8 \/ d = 9) as Hd by lia.
  repeat (destruct Hd as [-> | Hd]; [split; reflexivity|]).
  subst d. split; reflexivity.
Qed.

Lemma Z_of_digits_snoc ds c :
  Z_of_digits (ds ++ [c]) = 10 * Z_of_digits ds + digit_val c.
Proof. unfold Z_of_digits. rewrite fold_left_app. reflexivity. Qed.

Lemma digits_fuel_acc fuel :
  forall n acc, digits_fuel fuel n acc = digits_fuel fuel n [] ++ acc.
Proof.
  induction fuel as [|f IH]; intros n acc; simpl.
  - reflexivity.
  - destruct (n <? 10); [reflexivity|].
    rewrite (IH (n / 10) (digit_char (n mod 10) :: acc)).
    rewrite (IH (n / 10) [digit_char (n mod 10)]).
    rewrite <- app_assoc. reflexivity.
Qed.

Lemma digits_fuel_spec fuel :
  forall n, 0 <= n < 2 ^ Z.of_nat fuel ->
    forallb is_digit (digits_fuel fuel n []) = true
    /\ Z_of_digits (digits_fuel fuel n []) = n.
Proof.
  induction fuel as [|f IH]; intros n Hn.
  - simpl in *. split; [reflexivity|]. unfold Z_of_digits. simpl. lia.
  - simpl digits_fuel. destruct (n <? 10) eqn:E.
    + apply Z.ltb_lt in E. destruct (digit_char_spec n) as [H1 H2]; [lia|].
      split.
      * simpl. rewrite H1. reflexivity.
      * unfold Z_of_digits. simpl. rewrite H2. reflexivity.
    + apply Z.ltb_ge in E.
      rewrite digits_fuel_acc.
      assert (Hq : 0 <= n / 10 < 2 ^ Z.of_nat f).
      { rewrite Nat2Z.inj_succ, Z.pow_succ_r in Hn by lia.
        split; [apply Z.div_pos; lia|].
        apply Z.div_lt_upper_bound; lia. }
      destruct (IH (n / 10) Hq) as [H1 H2].
      destruct (digit_char_spec (n mod 10)) as [H3 H4].
      { apply Z.mod_pos_bound. lia. }
      split.
      * rewrite forallb_app, H1. simpl. rewrite H3. reflexivity.
      * rewrite Z_of_digits_snoc, H2, H4.
        symmetry. apply Z.div_mod. lia.
Qed.

(** The digits printed for [n] are digits, and their value is [n]. *)
Lemma digits_of_Z_spec n :
  0 <= n ->
  forallb is_digit (digits_of_Z n) = true /\ Z_of_digits (digits_of_Z n) = n.
Proof.
  intros Hn. unfold digits_of_Z. apply digits_fuel_spec.
  split; [exact Hn|].
  rewrite Nat2Z.inj_succ, Z2Nat.id by apply Z.log2_nonneg.
  destruct (Z.eq_dec n 0) as [->|Hne]; [reflexivity|].
  apply Z.log2_spec. lia.
Qed.

Lemma Z_of_digits_zeros k l :
  Z_of_digits (repeat "0"%char k ++ l) = Z_of_digits l.
Proof.
  unfold Z_of_digits. rewrite fold_left_app. f_equal.
  induction k as [|k IH]; simpl; [reflexivity|exact IH].
Qed.

Lemma forallb_digit_zeros k : forallb is_digit (repeat "0"%char k) = true.
Proof. induction k; simpl; [reflexivity|assumption]. Qed.

Lemma pad_zeros_spec len l :
  forallb is_digit l = true ->
  forallb is_digit (pad_zeros len l) = true
  /\ Z_of_digits (pad_zeros len l) = Z_of_digits l
  /\ (len <= List.length (pad_zeros len l))%nat.
Proof.
  intros Hl. unfold pad_zeros. repeat split.
  - rewrite forallb_app, forallb_digit_zeros, Hl. reflexivity.
  - apply Z_of_digits_zeros.
  - rewrite length_app, repeat_length. lia.
Qed.

Lemma span_digits_all ds :
  forallb is_digit ds = true -> span_digits ds = (ds, []).
Proof.
  induction ds as [|c r IH]; simpl; [reflexivity|].
  intros H. apply andb_prop in H as [Hc Hr]. rewrite Hc, (IH Hr). reflexivity.
Qed.

Lemma span_digits_stop ds c rest :
  forallb is_digit ds = true -> is_digit c = false ->
  span_digits (ds ++ c :: rest) = (ds, c :: rest).
Proof.
  induction ds as [|d r IH]; simpl; intros Hds Hc.
  - rewrite Hc. reflexivity.
  - apply andb_prop in Hds as [Hd Hr]. rewrite Hd, (IH Hr Hc). reflexivity.
Qed.

Lemma is_digit_code c : is_digit c = true -> 48 <= code c <= 57.
Proof.
  unfold is_digit. intros H. apply andb_prop in H as [H1 H2].
  apply Z.leb_le in H1. apply Z.leb_le in H2. lia.
Qed.

Lemma skip_ws_digit c r : is_digit c = true -> skip_ws (c :: r) = c :: r.
Proof.
  intros H. apply is_digit_code in H.
  assert (Hs : ascii_space c = false).
  { unfold ascii_space.
    destruct ((9 <=? code c) && (code c <=? 13)) eqn:E1.
    - apply andb_prop in E1 as [_ E1]. apply Z.leb_le in E1. lia.
    - simpl. apply Z.eqb_neq. lia. }
  assert (H194 : (code c =? 194) = false) by (apply Z.eqb_neq; lia).
  assert (H225 : (code c =? 225) = false) by (apply Z.eqb_neq; lia).
  assert (H226 : (code c =? 226) = false) by (apply Z.eqb_neq; lia).
  assert (H227 : (code c =? 227) = false) by (apply Z.eqb_neq; lia).
  assert (H239 : (code c =? 239) = false) by (apply Z.eqb_neq; lia).
  simpl. rewrite Hs. destruct r as [|c2 r2]; [reflexivity|].
  rewrite H194. simpl. destruct r2 as [|c3 r3]; [reflexivity|].
  rewrite H225, H226, H227, H239. reflexivity.
Qed.

Lemma digit_head_plain c r :
  is_digit c = true ->
  take_sign (c :: r) = (false, c :: r)
  /\ starts_with (chars "Infinity") (c :: r) = false.
Proof.
  intros H. apply is_digit_code in H.
  destruct c as [[] [] [] [] [] [] [] []]; try (split; reflexivity);
    unfold code in H; simpl in H; lia.
Qed.

Lemma chars_of_list l : chars (string_of_list_ascii l) = l.
Proof. apply list_ascii_of_string_of_list_ascii. Qed.

(** A digit string with a fraction reads back as its value scaled by the
    number of fraction digits. *)
Lemma parseFloat_decimal ip fp :
  ip <> [] -> forallb is_digit ip = true -> forallb is_digit fp = true ->
  parseFloat (string_of_list_ascii (ip ++ "."%char :: fp))
  = Fin (inject_Z (Z_of_digits (ip ++ fp))
         * pow10 (0 - Z.of_nat (List.length fp))).
Proof.
  intros Hne Hip Hfp. unfold parseFloat.
  rewrite chars_of_list.
  destruct ip as [|c r]; [contradiction|].
  simpl in Hip. apply andb_prop in Hip as [Hc Hr].
  change ((c :: r) ++ "."%char :: fp) with (c :: (r ++ "."%char :: fp)).
  rewrite (skip_ws_digit c _ Hc).
  destruct (digit_head_plain c (r ++ "."%char :: fp) Hc) as [Hs Hi].
  rewrite Hs, Hi.
  change (c :: (r ++ "."%char :: fp)) with ((c :: r) ++ "."%char :: fp).
  rewrite (span_digits_stop (c :: r) "."%char fp);
    [|simpl; rewrite Hc, Hr; reflexivity|reflexivity].
  rewrite (span_digits_all fp Hfp).
  change (exponent_part []) with 0.
  change ((c :: r) ++ fp) with (c :: (r ++ fp)).
  reflexivity.
Qed.


(** ** The summary *)

Lemma metricOf_field tab item :
  metricOf tab item = parser tab (or_zero (field tab item)).
Proof. destruct tab; reflexivity. Qed.

Lemma absent_not_positive tab :
  num_gt (parser tab "0") (Fin 0) = false
  /\ num_gt (parser tab "") (Fin 0) = false.
Proof. destruct tab; split; reflexivity. Qed.

(** The values the summary keeps are the eligible values: the zero that
    stands for an absent reading is never kept. *)
Lemma positive_only_eligible tab filtered :
  positive_only (map (metricOf tab) filtered) = eligible_values tab filtered.
Proof.
  unfold positive_only, eligible_values.
  induction filtered as [|item rest IH]; [reflexivity|].
  cbn [map filter flat_map]. rewrite IH, metricOf_field.
  destruct (absent_not_positive tab) as [H0 He].
  destruct (field tab item) as [[|c s]|]; cbn [or_zero].
  - rewrite H0, He. reflexivity.
  - destruct (num_gt (parser tab (String c s)) (Fin 0)); reflexivity.
  - rewrite H0. reflexivity.
Qed.

(** [isDataEmpty] says that there is no eligible value. *)
Lemma isDataEmpty_eligible tab filtered :
  isDataEmpty tab filtered = true <-> eligible_values tab filtered = [].
Proof.
  rewrite <- positive_only_eligible. unfold isDataEmpty, positive_only.
  destruct filtered as [|item rest]; [split; reflexivity|].
  generalize (item :: rest) as l. clear. intros l.
  induction l as [|a l IH]; [split; reflexivity|].
  cbn [existsb map filter].
  destruct (num_gt (metricOf tab a) (Fin 0)); cbn [orb negb].
  - split; discriminate.
  - exact IH.
Qed.

Lemma average_by_eligible tab f1 f2 :
  eligible_values tab f1 = eligible_values tab f2 ->
  average (getMetricInfo tab f1) = average (getMetricInfo tab f2).
Proof.
  rewrite <- !positive_only_eligible.
  assert (Hempty : forall f, positive_only (map (metricOf tab) f) = [] ->
            average (getMetricInfo tab f) = Fin 0).
  { intros [|a l] H; [reflexivity|].
    destruct tab; cbn [getMetricInfo average];
      change (map stepsOf) with (map (metricOf TabSteps));
      change (map weightOf) with (map (metricOf TabWeight));
      change (map heartRateOf) with (map (metricOf TabHeartRate));
      rewrite H; reflexivity. }
  destruct f1 as [|a1 l1], f2 as [|a2 l2]; intros H.
  - reflexivity.
  - symmetry in H. rewrite (Hempty _ H). reflexivity.
  - rewrite (Hempty _ H). reflexivity.
  - destruct tab; cbn [getMetricInfo average];
      change (map stepsOf) with (map (metricOf TabSteps));
      change (map weightOf) with (map (metricOf TabWeight));
      change (map heartRateOf) with (map (metricOf TabHeartRate));
      rewrite H; reflexivity.
Qed.

Lemma minmax_by_eligible tab f1 f2 :
  eligible_values tab f1 = eligible_values tab f2 ->
  getMinMaxValues tab f1 = getMinMaxValues tab f2.
Proof.
  rewrite <- !positive_only_eligible.
  assert (Hempty : forall f, positive_only (map (metricOf tab) f) = [] ->
            getMinMaxValues tab f = {| min := Fin 0; max := Fin 0 |}).
  { intros [|a l] H; [reflexivity|]. cbn [getMinMaxValues]. rewrite H. reflexivity. }
  destruct f1 as [|a1 l1], f2 as [|a2 l2]; intros H.
  - reflexivity.
  - symmetry in H. rewrite (Hempty _ H). reflexivity.
  - rewrite (Hempty _ H). reflexivity.
  - cbn [getMinMaxValues]. rewrite H. reflexivity.
Qed.

Lemma isDataEmpty_by_eligible tab f1 f2 :
  eligible_values tab f1 = eligible_values tab f2 ->
  isDataEmpty tab f1 = isDataEmpty tab f2.
Proof.
  intros H.
  destruct (isDataEmpty tab f1) eqn:E1, (isDataEmpty tab f2) eqn:E2; try reflexivity.
  - apply isDataEmpty_eligible in E1. rewrite H in E1.
    apply isDataEmpty_eligible in E1. congruence.
  - apply isDataEmpty_eligible in E2. rewrite <- H in E2.
    apply isDataEmpty_eligible in E2. congruence.
Qed.

Lemma eligible_values_app tab l1 l2 :
  eligible_values tab (l1 ++ l2) = eligible_values tab l1 ++ eligible_values tab l2.
Proof. unfold eligible_values. apply flat_map_app. Qed.

Lemma non_numeric_not_positive tab s :
  non_numeric s = true -> num_gt (parser tab s) (Fin 0) = false.
Proof.
  intros H. destruct tab; cbn [parser];
    [rewrite (non_numeric_parseInt s H) | rewrite (non_numeric_parseFloat s H)
     | rewrite (non_numeric_parseFloat s H)]; reflexivity.
Qed.

Lemma no_data_cards tab filtered :
  isDataEmpty tab filtered = true ->
  averageCard false tab filtered = CardNoData
  /\ minCard false tab filtered = CardNoData
  /\ maxCard false tab filtered = CardNoData.
Proof.
  intros H. unfold averageCard, minCard, maxCard, card. rewrite H.
  repeat split.
Qed.



Lemma eligible_positive tab filtered v :
  In v (eligible_values tab filtered) -> num_gt v (Fin 0) = true.
Proof.
  rewrite <- positive_only_eligible. unfold positive_only.
  intros H. apply filter_In in H. apply H.
Qed.














Lemma num_min_either a b : num_min a b = a \/ num_min a b = b.
Proof.
  destruct a, b; cbn [num_min]; auto.
  destruct (Qle_bool q q0); auto.
Qed.

Lemma num_max_either a b : num_max a b = a \/ num_max a b = b.
Proof.
  destruct a, b; cbn [num_max]; auto.
  destruct (Qle_bool q q0); auto.
Qed.

Lemma fold_either (f : number -> number -> number) :
  (forall a b, f a b = a \/ f a b = b) ->
  forall vs acc, In (fold_left f vs acc) (acc :: vs).
Proof.
  intros Hf. induction vs as [|v vs IH]; intros acc; cbn [fold_left].
  - left. reflexivity.
  - destruct (IH (f acc v)) as [H|H].
    + rewrite <- H.
      destruct (Hf acc v) as [E|E]; rewrite E; [left|right; left]; reflexivity.
    + right. right. exact H.
Qed.

Lemma Math_min_member v vs : In (Math_min (v :: vs)) (v :: vs).
Proof.
  unfold Math_min. cbn [fold_left].
  replace (num_min PInf v) with v by (destruct v; reflexivity).
  apply fold_either. exact num_min_either.
Qed.

Lemma Math_max_member v vs : In (Math_max (v :: vs)) (v :: vs).
Proof.
  unfold Math_max. cbn [fold_left].
  replace (num_max NInf v) with v by (destruct v; reflexivity).
  apply fold_either. exact num_max_either.
Qed.

Lemma minmax_members tab filtered :
  eligible_values tab filtered = []
  \/ (In (min (getMinMaxValues tab filtered)) (eligible_values tab filtered)
      /\ In (max (getMinMaxValues tab filtered)) (eligible_values tab filtered)).
Proof.
  rewrite <- positive_only_eligible.
  destruct filtered as [|item rest]; [left; reflexivity|].
  cbn [getMinMaxValues min max].
  destruct (positive_only (map (metricOf tab) (item :: rest))) as [|v vs];
    [left; reflexivity|right].
  split; [apply Math_min_member|apply Math_max_member].
Qed.








(** C10.  A data point whose selected reading is present and non-numeric:
    the reading is read as [NaN] (the empty string, being falsy, is read as
    0), it is not greater than zero, and wherever the data point stands in
    a selection it changes neither the eligible values nor the reported
    average, minimum and maximum nor the no-data state; alone, it leaves
    the three cards at "no data". *)
Theorem non_numeric_never_counts tab item s before behind :
  field tab item = Some s ->
  non_numeric s = true ->
  (s <> EmptyString -> metricOf tab item = NaN)
  /\ num_gt (metricOf tab item) (Fin 0) = false
  /\ eligible_values tab (before ++ item :: behind)
     = eligible_values tab (before ++ behind)
  /\ average (getMetricInfo tab (before ++ item :: behind))
     = average (getMetricInfo tab (before ++ behind))
  /\ getMinMaxValues tab (before ++ item :: behind)
     = getMinMaxValues tab (before ++ behind)
  /\ isDataEmpty tab (before ++ item :: behind)
     = isDataEmpty tab (before ++ behind)
  /\ averageCard false tab [item] = CardNoData
  /\ minCard false tab [item] = CardNoData
  /\ maxCard false tab [item] = CardNoData.
Proof.
  intros Hf Hn.
  assert (Hel : eligible_values tab [item] = []).
  { unfold eligible_values. cbn [flat_map]. rewrite Hf.
    rewrite (non_numeric_not_positive tab s Hn). reflexivity. }
  assert (Hsame : eligible_values tab (before ++ item :: behind)
                  = eligible_values tab (before ++ behind)).
  { change (item :: behind) with ([item] ++ behind).
    rewrite !eligible_values_app, Hel. reflexivity. }
  split; [|split; [|split; [|split; [|split; [|split]]]]].
  - intros Hne. exact (non_numeric_metricOf tab item s Hf Hn Hne).
  - assert (Hp : positive_only (map (metricOf tab) [item]) = []).
    { rewrite positive_only_eligible. exact Hel. }
    unfold positive_only in Hp. cbn [map filter] in Hp.
    destruct (num_gt (metricOf tab item) (Fin 0)); [discriminate|reflexivity].
  - exact Hsame.
  - apply average_by_eligible. exact Hsame.
  - apply minmax_by_eligible. exact Hsame.
  - apply isDataEmpty_by_eligible. exact Hsame.
  - apply no_data_cards. apply isDataEmpty_eligible. exact Hel.
Qed.
Lemma non_numeric_never_counts_witness :
  metricOf TabSteps garbled_steps = NaN
  /\ average (getMetricInfo TabSteps ([jan1] ++ garbled_steps :: [jan2]))
     = average (getMetricInfo TabSteps ([jan1] ++ [jan2])).
Proof.
  split.
  - apply (proj1 (non_numeric_never_counts TabSteps garbled_steps "abc"
                    [jan1] [jan2] eq_refl eq_refl)).
    discriminate.
  - apply (non_numeric_never_counts TabSteps garbled_steps "abc"
             [jan1] [jan2] eq_refl eq_refl).
Defined.

(** ** The calendar *)

(** The calendar date of a day number leads back to that day number. *)
Lemma days_from_civil_from_days z :
  let '(y, m, d) := civil_from_days z in days_from_civil y m d = z.
Proof.
  unfold civil_from_days, days_from_civil.
  set (z' := z + 719468).
  set (era := z' / 146097).
  set (doe := z' - era * 146097).
  set (yoe := (doe - doe / 1460 + doe / 36524 - doe / 146096) / 365).
  set (doy := doe - (365 * yoe + yoe / 4 - yoe / 100)).
  set (mp := (5 * doy + 2) / 153).
  assert (Hdoe : 0 <= doe < 146097).
  { subst doe era. Z.div_mod_to_equations. lia. }
  assert (Hy : 0 <= yoe < 400 /\ 0 <= doy < 366).
  { subst yoe doy. revert Hdoe. generalize doe. clear. intros doe Hdoe.
    Z.div_mod_to_equations. lia. }
  destruct Hy as [Hyoe Hdoy].
  assert (Hmp : 0 <= mp < 12).
  { subst mp. clearbody doy. clear -Hdoy. Z.div_mod_to_equations. lia. }
  assert (Edoy : doy = doe - (365 * yoe + yoe / 4 - yoe / 100)) by reflexivity.
  assert (Edoe : doe = z + 719468 - era * 146097) by reflexivity.
  clearbody mp doy yoe doe era.
  destruct (mp <? 10) eqn:Emp.
  - apply Z.ltb_lt in Emp.
    replace (mp + 3 <=? 2) with false by (symmetry; apply Z.leb_gt; lia).
    replace ((mp + 3 + 9) mod 12) with mp by (Z.div_mod_to_equations; lia).
    replace ((yoe + era * 400) / 400) with era by (Z.div_mod_to_equations; lia).
    replace (yoe + era * 400 - era * 400) with yoe by lia.
    lia.
  - apply Z.ltb_ge in Emp.
    replace (mp - 9 <=? 2) with true by (symmetry; apply Z.leb_le; lia).
    replace ((mp - 9 + 9) mod 12) with mp by (Z.div_mod_to_equations; lia).
    replace ((yoe + era * 400 + 1 - 1) / 400) with era by (Z.div_mod_to_equations; lia).
    replace (yoe + era * 400 + 1 - 1 - era * 400) with yoe by lia.
    lia.
Qed.

(** Within a 400-year era, the day of the era built from a year of the
    era and a day of that (March-based) year gives the year back. *)
Lemma yoe_recover yoe doy :
  0 <= yoe < 400 -> 0 <= doy ->
  (doy <= 364 \/ (doy = 365 /\ (yoe + 1) mod 4 = 0 /\ ((yoe + 1) mod 100 <> 0 \/ (yoe + 1) mod 400 = 0))) ->
  let doe := yoe * 365 + yoe / 4 - yoe / 100 + doy in
  0 <= doe < 146097 /\
  (doe - doe / 1460 + doe / 36524 - doe / 146096) / 365 = yoe.
Proof.
  intros Hy Hd Hleap doe. subst doe.
  Z.div_mod_to_equations; lia.
Qed.

Lemma isLeapYear_spec y :
  isLeapYear y = true <-> (y mod 4 = 0 /\ (y mod 100 <> 0 \/ y mod 400 = 0)).
Proof.
  unfold isLeapYear.
  destruct (y mod 4 =? 0) eqn:E4; destruct (y mod 100 =? 0) eqn:E100;
    destruct (y mod 400 =? 0) eqn:E400; cbn;
    rewrite ?Z.eqb_eq, ?Z.eqb_neq in *; split; intros H; try discriminate;
    try reflexivity; try lia.
  - exfalso. revert E4 E100 E400. clear. Z.div_mod_to_equations. lia.
  - exfalso. revert E4 E100 E400. clear. Z.div_mod_to_equations. lia.
Qed.

Lemma civil_of_era era yoe doy :
  0 <= yoe < 400 -> 0 <= doy ->
  (doy <= 364 \/ (doy = 365 /\ (yoe + 1) mod 4 = 0 /\ ((yoe + 1) mod 100 <> 0 \/ (yoe + 1) mod 400 = 0))) ->
  let z := era * 146097 + (yoe * 365 + yoe / 4 - yoe / 100 + doy) - 719468 in
  let mp := (5 * doy + 2) / 153 in
  let d := doy - (153 * mp + 2) / 5 + 1 in
  let m := if mp <? 10 then mp + 3 else mp - 9 in
  civil_from_days z = (if m <=? 2 then yoe + era * 400 + 1 else yoe + era * 400, m, d).
Proof.
  intros Hy Hd Hleap z mp d m.
  destruct (yoe_recover yoe doy Hy Hd Hleap) as [Hdoe Hyoe].
  unfold civil_from_days.
  set (doe := yoe * 365 + yoe / 4 - yoe / 100 + doy) in *.
  assert (Hera : (z + 719468) / 146097 = era).
  { subst z. clearbody doe. clear -Hdoe. Z.div_mod_to_equations. lia. }
  rewrite Hera.
  replace (z + 719468 - era * 146097) with doe by (subst z; lia).
  rewrite Hyoe.
  replace (doe - (365 * yoe + yoe / 4 - yoe / 100)) with doy by (subst doe; lia).
  reflexivity.
Qed.

(** The day number of a legal calendar date leads back to that date. *)
Lemma civil_from_days_from_civil y m d :
  1 <= m <= 12 -> 1 <= d <= daysInMonth y m ->
  civil_from_days (days_from_civil y m d) = (y, m, d).
Proof.
  intros Hm Hd.
  unfold days_from_civil.
  set (y' := if m <=? 2 then y - 1 else y).
  set (era := y' / 400).
  set (yoe := y' - era * 400).
  set (mp := (m + 9) mod 12).
  set (doy := (153 * mp + 2) / 5 + d - 1).
  assert (Hyoe : 0 <= yoe < 400).
  { subst yoe era. clearbody y'. clear. Z.div_mod_to_equations. lia. }
  assert (Hleapy := isLeapYear_spec y).
  assert (Hcases : m = 1 \/ m = 2 \/ m = 3 \/ m = 4 \/ m = 5 \/ m = 6 \/ m = 7
                   \/ m = 8 \/ m = 9 \/ m = 10 \/ m = 11 \/ m = 12) by lia.
  assert (Hgoal :
    0 <= doy
    /\ (doy <= 364 \/ (doy = 365 /\ (yoe + 1) mod 4 = 0 /\ ((yoe + 1) mod 100 <> 0 \/ (yoe + 1) mod 400 = 0)))
    /\ (5 * doy + 2) / 153 = mp
    /\ (if mp <? 10 then mp + 3 else mp - 9) = m
    /\ (if m <=? 2 then yoe + era * 400 + 1 else yoe + era * 400) = y).
  { unfold daysInMonth in Hd.
    repeat (destruct Hcases as [Hc|Hcases]; [subst m|]); [..|subst m];
      (let b := eval unfold mp in mp in
       let v := eval vm_compute in b in
       assert (Emp : mp = v) by reflexivity);
      (let b := eval unfold y' in y' in
       let v := eval cbn [Z.leb Z.compare Pos.compare Pos.compare_cont] in b in
       assert (Ey : y' = v) by reflexivity);
      assert (Edoy : doy = (153 * mp + 2) / 5 + d - 1) by reflexivity;
      assert (Eyoe : yoe = y' - era * 400) by reflexivity;
      assert (Eera : era = y' / 400) by reflexivity;
      clearbody doy yoe era mp y'; subst mp y';
      cbn [Z.eqb Z.ltb Z.leb Z.compare Pos.compare Pos.compare_cont Pos.eqb orb] in Hd |- *;
      (destruct (isLeapYear y);
       [pose proof (proj1 Hleapy eq_refl) as El
       |assert (El : ~ (y mod 4 = 0 /\ (y mod 100 <> 0 \/ y mod 400 = 0)))
          by (intros Hx; apply (proj2 Hleapy) in Hx; discriminate Hx)]);
      clear Hleapy; subst doy yoe era;
      Z.div_mod_to_equations; lia. }
  destruct Hgoal as (H0 & Hl & Hmp & Hmm & Hyy).
  pose proof (civil_of_era era yoe doy Hyoe H0 Hl) as Hc.
  cbv zeta in Hc. rewrite Hmp, Hmm, Hyy in Hc.
  rewrite Hc. f_equal. subst doy. lia.
Qed.

Lemma civil_month_range z :
  1 <= snd (fst (civil_from_days z)) <= 12.
Proof.
  unfold civil_from_days.
  set (z' := z + 719468).
  set (era := z' / 146097).
  set (doe := z' - era * 146097).
  set (yoe := (doe - doe / 1460 + doe / 36524 - doe / 146096) / 365).
  set (doy := doe - (365 * yoe + yoe / 4 - yoe / 100)).
  set (mp := (5 * doy + 2) / 153).
  assert (Hdoe : 0 <= doe < 146097).
  { subst doe era. Z.div_mod_to_equations. lia. }
  assert (Hy : 0 <= yoe < 400 /\ 0 <= doy < 366).
  { subst yoe doy. revert Hdoe. generalize doe. clear. intros doe Hdoe.
    Z.div_mod_to_equations. lia. }
  assert (Hmp : 0 <= mp < 12).
  { subst mp. clearbody doy. destruct Hy as [_ Hdoy]. clear -Hdoy.
    Z.div_mod_to_equations. lia. }
  cbn [fst snd]. destruct (mp <? 10) eqn:E.
  - apply Z.ltb_lt in E. lia.
  - apply Z.ltb_ge in E. lia.
Qed.

Lemma TimeWithinDay_range t : 0 <= TimeWithinDay t < msPerDay.
Proof. unfold TimeWithinDay. apply Z.mod_pos_bound. reflexivity. Qed.

Lemma MakeDate_Day t : MakeDate (Day t) (TimeWithinDay t) = t.
Proof.
  unfold MakeDate, Day, TimeWithinDay.
  rewrite Z.mul_comm. symmetry. apply Z.div_mod. discriminate.
Qed.

Lemma Day_MakeDate day time :
  0 <= time < msPerDay ->
  Day (MakeDate day time) = day /\ TimeWithinDay (MakeDate day time) = time.
Proof.
  unfold Day, TimeWithinDay, MakeDate, msPerDay. intros H.
  Z.div_mod_to_equations. lia.
Qed.

Lemma days_from_civil_linear y m d :
  days_from_civil y m d = days_from_civil y m 1 + d - 1.
Proof. unfold days_from_civil. lia. Qed.

Lemma MakeDay_normal y m d :
  1 <= m <= 12 -> MakeDay y (m - 1) d = days_from_civil y m d.
Proof.
  intros H. unfold MakeDay.
  replace ((m - 1) / 12) with 0 by (Z.div_mod_to_equations; lia).
  replace ((m - 1) mod 12 + 1) with m by (Z.div_mod_to_equations; lia).
  rewrite Z.add_0_r. symmetry. apply days_from_civil_linear.
Qed.

Lemma daysInMonth_range y m : 28 <= daysInMonth y m <= 31.
Proof.
  unfold daysInMonth.
  destruct (m =? 2); [destruct (isLeapYear y); lia|].
  destruct ((m =? 4) || (m =? 6) || (m =? 9) || (m =? 11)); lia.
Qed.

(** The day after the last day of a month is the first of the next. *)
Lemma end_of_month y m :
  1 <= m <= 12 ->
  days_from_civil y m (daysInMonth y m) + 1
  = days_from_civil (y + m / 12) (m mod 12 + 1) 1.
Proof.
  intros Hm.
  assert (Hleapy := isLeapYear_spec y).
  assert (Hcases : m = 1 \/ m = 2 \/ m = 3 \/ m = 4 \/ m = 5 \/ m = 6 \/ m = 7
                   \/ m = 8 \/ m = 9 \/ m = 10 \/ m = 11 \/ m = 12) by lia.
  unfold daysInMonth, days_from_civil.
  repeat (destruct Hcases as [Hc|Hcases]; [subst m|]); [..|subst m];
    (destruct (isLeapYear y);
     [pose proof (proj1 Hleapy eq_refl) as El
     |assert (El : ~ (y mod 4 = 0 /\ (y mod 100 <> 0 \/ y mod 400 = 0)))
        by (intros Hx; apply (proj2 Hleapy) in Hx; discriminate Hx)]);
    clear Hleapy;
    repeat match goal with
    | |- context [?a / 12] =>
        let v := eval vm_compute in (a / 12) in change (a / 12) with v
    | |- context [?a mod 12] =>
        let v := eval vm_compute in (a mod 12) in change (a mod 12) with v
    end;
    cbn [Z.eqb Z.ltb Z.leb Z.compare Pos.compare Pos.compare_cont Pos.eqb orb
         Z.add Pos.add Pos.succ];
    Z.div_mod_to_equations; lia.
Qed.

Lemma civil_fields t :
  civil_from_days (Day t) = (getFullYear t, getMonth t + 1, getDate t).
Proof.
  unfold getFullYear, getMonth, getDate, YearFromTime, MonthFromTime, DateFromTime.
  destruct (civil_from_days (Day t)) as [[y m] d]. cbn [fst snd].
  f_equal. f_equal. lia.
Qed.

Lemma getMonth_range t : 1 <= getMonth t + 1 <= 12.
Proof.
  pose proof (civil_month_range (Day t)) as H.
  rewrite civil_fields in H. exact H.
Qed.

Lemma day_of_fields t :
  days_from_civil (getFullYear t) (getMonth t + 1) (getDate t) = Day t.
Proof.
  pose proof (days_from_civil_from_days (Day t)) as H.
  rewrite civil_fields in H. exact H.
Qed.

(** [now.setDate(now.getDate() - 7)] is seven days before [now]. *)
Lemma setDate_week now : setDate now (getDate now - 7) = now - 7 * msPerDay.
Proof.
  unfold setDate. fold (getFullYear now) (getMonth now).
  replace (getMonth now) with (getMonth now + 1 - 1) by lia.
  rewrite MakeDay_normal by apply getMonth_range.
  rewrite days_from_civil_linear.
  replace (days_from_civil (getFullYear now) (getMonth now + 1) 1
             + (getDate now - 7) - 1)
    with (days_from_civil (getFullYear now) (getMonth now + 1) (getDate now) - 7)
    by (rewrite (days_from_civil_linear _ _ (getDate now)); lia).
  rewrite day_of_fields.
  rewrite <- (MakeDate_Day now) at 3. unfold MakeDate. lia.
Qed.

(** [now.setFullYear(now.getFullYear() - 1)] keeps month, day and time of
    day. *)
Lemma setFullYear1_calendar now :
  setFullYear1 now (getFullYear now - 1)
  = at_day (getFullYear now - 1, getMonth now + 1, getDate now) now.
Proof.
  unfold setFullYear1, at_day. fold (getMonth now) (getDate now).
  replace (getMonth now) with (getMonth now + 1 - 1) at 1 by lia.
  rewrite MakeDay_normal by apply getMonth_range.
  reflexivity.
Qed.

Lemma target_month y m n :
  let idx := y * 12 + (m - 1) - n in
  1 <= idx mod 12 + 1 <= 12
  /\ MakeDay y (m - n) 0
     = days_from_civil (idx / 12) (idx mod 12 + 1)
         (daysInMonth (idx / 12) (idx mod 12 + 1)).
Proof.
  intros idx.
  assert (Hm' : 1 <= idx mod 12 + 1 <= 12).
  { pose proof (Z.mod_pos_bound idx 12 eq_refl). lia. }
  split; [exact Hm'|].
  pose proof (end_of_month (idx / 12) (idx mod 12 + 1) Hm') as He.
  unfold MakeDay.
  replace (y + (m - n) / 12) with (idx / 12 + (idx mod 12 + 1) / 12)
    by (subst idx; Z.div_mod_to_equations; lia).
  replace ((m - n) mod 12 + 1) with ((idx mod 12 + 1) mod 12 + 1)
    by (subst idx; Z.div_mod_to_equations; lia).
  lia.
Qed.

Lemma fields_of_day y m d t :
  1 <= m <= 12 -> 1 <= d <= daysInMonth y m ->
  let t' := MakeDate (days_from_civil y m d) (TimeWithinDay t) in
  getFullYear t' = y /\ getMonth t' = m - 1 /\ getDate t' = d
  /\ TimeWithinDay t' = TimeWithinDay t.
Proof.
  intros Hm Hd t'.
  destruct (Day_MakeDate (days_from_civil y m d) (TimeWithinDay t)
              (TimeWithinDay_range t)) as [HD HT].
  fold t' in HD, HT.
  unfold getFullYear, getMonth, getDate, YearFromTime, MonthFromTime, DateFromTime.
  rewrite HD, (civil_from_days_from_civil y m d Hm Hd). cbn [fst snd].
  repeat split; try lia; exact HT.
Qed.

(** [subMonths] is calendar subtraction of months, at the same time of
    day. *)
Lemma subMonths_calendar now n :
  n <> 0 ->
  subMonths now n = at_day (months_before n (civil_from_days (Day now))) now.
Proof.
  intros Hn.
  rewrite civil_fields. unfold subMonths, addMonths, months_before, at_day.
  set (y := getFullYear now). set (m := getMonth now + 1). set (d := getDate now).
  replace (- n =? 0) with false by (symmetry; apply Z.eqb_neq; lia).
  set (idx := y * 12 + (m - 1) - n).
  destruct (target_month y m n) as [Hm' Hend]. fold idx in Hm', Hend.
  set (y' := idx / 12) in *. set (m' := idx mod 12 + 1) in *.
  pose proof (daysInMonth_range y' m') as Hr.
  assert (Eend : setMonth now (getMonth now + - n + 1) 0
                 = MakeDate (days_from_civil y' m' (daysInMonth y' m'))
                     (TimeWithinDay now)).
  { unfold setMonth. fold (getFullYear now). fold y.
    replace (getMonth now + - n + 1) with (m - n) by (subst m; lia).
    rewrite Hend. reflexivity. }
  rewrite Eend.
  destruct (fields_of_day y' m' (daysInMonth y' m') now Hm' ltac:(lia))
    as (Hy & Hmo & Hda & _).
  rewrite Hy, Hmo, Hda.
  destruct (daysInMonth y' m' <=? d) eqn:E.
  - apply Z.leb_le in E. rewrite Z.min_r by exact E. reflexivity.
  - apply Z.leb_gt in E. rewrite Z.min_l by lia.
    unfold setFullYear3. rewrite MakeDay_normal by exact Hm'. reflexivity.
Qed.

(** ** The sort *)

Section SortFacts.
Context {A : Type}.
Variable compareFn : A -> A -> option Z.

Lemma sort_insert_perm x l : Permutation (sort_insert compareFn x l) (x :: l).
Proof.
  induction l as [|y r IH]; cbn [sort_insert]; [reflexivity|].
  destruct (after compareFn x y); [|reflexivity].
  rewrite IH. apply perm_swap.
Qed.

Lemma sort_perm l : Permutation (sort compareFn l) l.
Proof.
  induction l as [|x r IH]; cbn [sort]; [reflexivity|].
  rewrite sort_insert_perm. apply perm_skip. exact IH.
Qed.

Lemma sort_length l : List.length (sort compareFn l) = List.length l.
Proof. apply Permutation_length. apply sort_perm. Qed.


End SortFacts.

Lemma after_byDate a b :
  after byDate a b = true ->
  exists ta tb, Date_getTime (date a) = Some ta
                /\ Date_getTime (date b) = Some tb /\ tb < ta.
Proof.
  unfold after, byDate.
  destruct (Date_getTime (date a)) as [ta|]; [|discriminate].
  destruct (Date_getTime (date b)) as [tb|]; [|discriminate].
  intros H. apply Z.ltb_lt in H. exists ta, tb. repeat split. lia.
Qed.

Lemma not_after_byDate a b ta tb :
  Date_getTime (date a) = Some ta -> Date_getTime (date b) = Some tb ->
  after byDate a b = false -> ta <= tb.
Proof.
  unfold after, byDate. intros -> ->. intros H. apply Z.ltb_ge in H. lia.
Qed.

Lemma sortedData_perm filtered : Permutation (sortedData filtered) filtered.
Proof. apply sort_perm. Qed.


Lemma date_le_trans a b c : date_le a b -> date_le b c -> date_le a c.
Proof.
  unfold date_le.
  destruct (Date_getTime (date a)), (Date_getTime (date b)),
    (Date_getTime (date c)); try contradiction; lia.
Qed.

Lemma sort_insert_sorted x l :
  dated x -> Forall dated l ->
  StronglySorted date_le l ->
  StronglySorted date_le (sort_insert byDate x l).
Proof.
  intros Hx Hl Hs. induction Hs as [|y r Hr IH Hy]; cbn [sort_insert].
  - constructor; constructor.
  - apply Forall_cons_iff in Hl as [Hdy Hdr].
    destruct (after byDate x y) eqn:E.
    + constructor; [apply IH; exact Hdr|].
      apply (Permutation_Forall (Permutation_sym (sort_insert_perm byDate x r))).
      constructor; [|exact Hy].
      destruct (after_byDate x y E) as (tx & ty & Ex & Ey & Hlt).
      unfold date_le. rewrite Ex, Ey. lia.
    + assert (Hxy : date_le x y).
      { unfold dated in Hx, Hdy. unfold date_le.
        destruct (Date_getTime (date x)) as [tx|] eqn:Ex; [|contradiction].
        destruct (Date_getTime (date y)) as [ty|] eqn:Ey; [|contradiction].
        exact (not_after_byDate x y tx ty Ex Ey E). }
      constructor; [constructor; assumption|].
      constructor; [exact Hxy|].
      apply Forall_impl with (P := date_le y); [|exact Hy].
      intros z Hz. exact (date_le_trans x y z Hxy Hz).
Qed.

(** On dated data points the comparator is consistent and the result is
    ordered. *)
Lemma sortedData_sorted filtered :
  Forall dated filtered -> StronglySorted date_le (sortedData filtered).
Proof.
  unfold sortedData. induction filtered as [|x r IH]; intros H; cbn [sort].
  - constructor.
  - apply Forall_cons_iff in H as [Hx Hr].
    apply sort_insert_sorted; [exact Hx| |apply IH; exact Hr].
    exact (Permutation_Forall (Permutation_sym (sort_perm byDate r)) Hr).
Qed.





(** ** The window filter and the series *)

Lemma map_result_length {A B} (f : A -> result B) l :
  forall bs, map_result f l = Ok bs -> List.length bs = List.length l.
Proof.
  induction l as [|a r IH]; cbn [map_result]; intros bs H.
  - injection H as <-. reflexivity.
  - destruct (f a) as [b|e]; cbn [bind] in H; [|discriminate].
    destruct (map_result f r) as [bs'|e]; cbn [bind] in H; [|discriminate].
    injection H as <-. cbn [List.length]. rewrite (IH bs' eq_refl). reflexivity.
Qed.


Lemma map_result_total {A B} (f : A -> result B) l :
  (forall x, In x l -> exists b, f x = Ok b) ->
  exists bs, map_result f l = Ok bs.
Proof.
  induction l as [|a r IH]; intros H; cbn [map_result].
  - exists []. reflexivity.
  - destruct (H a (or_introl eq_refl)) as [b ->].
    destruct IH as [bs ->]; [intros x Hx; apply H; right; exact Hx|].
    exists (b :: bs). reflexivity.
Qed.


Lemma data_dataset_of tab sorted :
  data (dataset_of tab sorted) = map (metricOf tab) sorted.
Proof. destruct tab; reflexivity. Qed.

Lemma chartData_inv tab filtered c :
  chartData tab filtered = Ok (Some c) ->
  filtered <> []
  /\ map_result (fun item => format_MMM_d (parse (date item))) (sortedData filtered)
     = Ok (labels c)
  /\ datasets c = [dataset_of tab (sortedData filtered)].
Proof.
  unfold chartData. destruct filtered as [|item rest]; [discriminate|].
  destruct (map_result _ (sortedData (item :: rest))) as [ls|e]; cbn [bind];
    [|discriminate].
  intros H. injection H as <-. cbn [labels datasets].
  repeat split. discriminate.
Qed.

Lemma seriesValues_chartData tab filtered c :
  chartData tab filtered = Ok (Some c) ->
  seriesValues c = map (metricOf tab) (sortedData filtered).
Proof.
  intros H. destruct (chartData_inv tab filtered c H) as (_ & _ & Hd).
  unfold seriesValues. rewrite Hd. cbn [map List.concat].
  rewrite app_nil_r. apply data_dataset_of.
Qed.


Lemma chartData_total tab filtered :
  (forall item, In item filtered -> parse (date item) <> None) ->
  exists c, chartProp tab filtered = Ok c.
Proof.
  intros H. unfold chartProp, chartData.
  destruct filtered as [|a r]; [eexists; reflexivity|].
  destruct (map_result_total
              (fun item => format_MMM_d (parse (date item)))
              (sortedData (a :: r))) as [ls ->].
  - intros x Hx.
    apply (Permutation_in _ (sortedData_perm (a :: r))) in Hx.
    specialize (H x Hx). destruct (parse (date x)); [|contradiction].
    eexists. reflexivity.
  - eexists. reflexivity.
Qed.

Lemma filteredData_bounded now timePeriod healthData cutoff :
  cutoffDate now timePeriod = Some cutoff ->
  filteredData now timePeriod healthData
  = filter (fun item => date_ge (parse (date item)) cutoff) healthData.
Proof.
  intros H. unfold filteredData. rewrite H.
  destruct healthData; reflexivity.
Qed.

Lemma filteredData_unbounded now timePeriod healthData :
  cutoffDate now timePeriod = None ->
  filteredData now timePeriod healthData = healthData.
Proof.
  intros H. unfold filteredData. rewrite H.
  destruct healthData; reflexivity.
Qed.

(** Under a bounded period a data point whose date does not parse is left
    out of the selection, and the series is built. *)
Lemma bounded_window_skips_malformed now timePeriod healthData cutoff tab :
  cutoffDate now timePeriod = Some cutoff ->
  (forall item, In item (filteredData now timePeriod healthData) ->
     parse (date item) <> None)
  /\ exists c, chartProp tab (filteredData now timePeriod healthData) = Ok c.
Proof.
  intros H.
  assert (Hvalid : forall item,
            In item (filteredData now timePeriod healthData) ->
            parse (date item) <> None).
  { intros item Hin. rewrite (filteredData_bounded _ _ _ _ H) in Hin.
    apply filter_In in Hin as [_ Hge].
    destruct (parse (date item)); [discriminate|discriminate Hge]. }
  split; [exact Hvalid|]. apply chartData_total. exact Hvalid.
Qed.

(** C3.  For a bounded period the selection is the data points, in their
    order, whose date parses to an instant at or after the cutoff: a dated
    data point is included iff its date (midnight of its day) is at or
    after the cutoff and excluded iff it is before.  The cutoff is [now] minus seven days for
    [7D]; for [1M], [3M], [6M] the same time of day on the calendar day 1,
    3 or 6 months back (the last day of the target month when that month
    is shorter); for [1Y] the same month, day and time one year back.  The
    period [ALL] selects every data point. *)
Theorem window_filter now timePeriod healthData :
  (forall cutoff, cutoffDate now timePeriod = Some cutoff ->
     filteredData now timePeriod healthData
     = filter (fun item => date_ge (parse (date item)) cutoff) healthData
     /\ forall item t, In item healthData -> parse (date item) = Some t ->
          (In item (filteredData now timePeriod healthData) <-> cutoff <= t)
          /\ (~ In item (filteredData now timePeriod healthData) <-> t < cutoff))
  /\ cutoffDate now WEEK = Some (now - 7 * msPerDay)
  /\ cutoffDate now MONTH
     = Some (at_day (months_before 1 (civil_from_days (Day now))) now)
  /\ cutoffDate now THREE_MONTHS
     = Some (at_day (months_before 3 (civil_from_days (Day now))) now)
  /\ cutoffDate now SIX_MONTHS
     = Some (at_day (months_before 6 (civil_from_days (Day now))) now)
  /\ cutoffDate now YEAR
     = Some (at_day (getFullYear now - 1, getMonth now + 1, getDate now) now)
  /\ filteredData now ALL healthData = healthData.
Proof.
  split; [|repeat split].
  - intros cutoff H. split; [exact (filteredData_bounded _ _ _ _ H)|].
    intros item t Hin Hp.
    rewrite (filteredData_bounded _ _ _ _ H).
    assert (Hiff : In item (filter (fun item0 => date_ge (parse (date item0)) cutoff)
                              healthData) <-> cutoff <= t).
    { rewrite filter_In, Hp. cbn [date_ge]. rewrite Z.leb_le. tauto. }
    split; [exact Hiff|]. rewrite Hiff. lia.
  - change (cutoffDate now WEEK) with (Some (setDate now (getDate now - 7))).
    rewrite setDate_week. reflexivity.
  - change (cutoffDate now MONTH) with (Some (subMonths now 1)).
    rewrite subMonths_calendar by discriminate. reflexivity.
  - change (cutoffDate now THREE_MONTHS) with (Some (subMonths now 3)).
    rewrite subMonths_calendar by discriminate. reflexivity.
  - change (cutoffDate now SIX_MONTHS) with (Some (subMonths now 6)).
    rewrite subMonths_calendar by discriminate. reflexivity.
  - change (cutoffDate now YEAR)
      with (Some (setFullYear1 now (getFullYear now - 1))).
    rewrite setFullYear1_calendar. reflexivity.
  - apply filteredData_unbounded. reflexivity.
Qed.

Lemma window_filter_witness :
  filteredData 1741996800000 WEEK [mar1; mar10] = [mar10]
  /\ (In mar10 (filteredData 1741996800000 WEEK [mar1; mar10])
      <-> 1741996800000 - 7 * msPerDay <= 1741564800000).
Proof.
  split.
  - reflexivity.
  - apply (proj2 (proj1 (window_filter 1741996800000 WEEK [mar1; mar10])
                    (1741996800000 - 7 * msPerDay)
                    (proj1 (proj2 (window_filter 1741996800000 WEEK [mar1; mar10]))))
             mar10 1741564800000).
    + right. left. reflexivity.
    + reflexivity.
Defined.










(** * Further properties *)

(** ** The calendar: days of the month, months in a row *)

Lemma civil_day_range z :
  1 <= snd (civil_from_days z)
       <= daysInMonth (fst (fst (civil_from_days z))) (snd (fst (civil_from_days z))).
Proof.
  unfold civil_from_days.
  set (z' := z + 719468).
  set (era := z' / 146097).
  set (doe := z' - era * 146097).
  set (yoe := (doe - doe / 1460 + doe / 36524 - doe / 146096) / 365).
  set (doy := doe - (365 * yoe + yoe / 4 - yoe / 100)).
  set (mp := (5 * doy + 2) / 153).
  assert (Hdoe : 0 <= doe < 146097).
  { subst doe era. Z.div_mod_to_equations. lia. }
  assert (Hy : 0 <= yoe < 400 /\ 0 <= doy < 366
               /\ (doy = 365 -> (yoe + 1) mod 4 = 0
                   /\ ((yoe + 1) mod 100 <> 0 \/ (yoe + 1) mod 400 = 0))).
  { subst yoe doy. revert Hdoe. generalize doe. clear. intros doe Hdoe.
    Z.div_mod_to_equations. lia. }
  destruct Hy as (Hyoe & Hdoy & Hleap).
  assert (Hmp : 0 <= mp < 12).
  { subst mp. clearbody doy. clear -Hdoy. Z.div_mod_to_equations. lia. }
  cbn [fst snd].
  assert (Emp : 153 * mp <= 5 * doy + 2 < 153 * mp + 153).
  { subst mp. clear. Z.div_mod_to_equations. lia. }
  clearbody mp doy yoe. clear Hdoe. clearbody era. clear doe z'.
  assert (Hcases : mp = 0 \/ mp = 1 \/ mp = 2 \/ mp = 3 \/ mp = 4 \/ mp = 5
                   \/ mp = 6 \/ mp = 7 \/ mp = 8 \/ mp = 9 \/ mp = 10 \/ mp = 11) by lia.
  unfold daysInMonth.
  repeat (destruct Hcases as [Hc|Hcases]; [subst mp|]); [..|subst mp];
    repeat match goal with
    | |- context [if ?a <? ?b then ?x else ?y] =>
        let v := eval vm_compute in (if a <? b then x else y) in
        change (if a <? b then x else y) with v
    end;
    cbn [Z.eqb Z.leb Z.compare Pos.compare Pos.compare_cont Pos.eqb orb];
    try (Z.div_mod_to_equations; lia).
  all: pose proof (isLeapYear_spec (yoe + era * 400 + 1)) as Hl;
    destruct (isLeapYear (yoe + era * 400 + 1));
    [ Z.div_mod_to_equations; lia
    | assert (El : ~ ((yoe + era * 400 + 1) mod 4 = 0 /\ ((yoe + era * 400 + 1) mod 100 <> 0 \/ (yoe + era * 400 + 1) mod 400 = 0)))
        by (intros Hx; apply (proj2 Hl) in Hx; discriminate Hx);
      clear Hl;
      assert (doy <> 365);
      [ intros E; apply Hleap in E; apply El; clear -E; Z.div_mod_to_equations; lia
      | Z.div_mod_to_equations; lia ] ].
Qed.

Lemma month_length_range idx : 28 <= month_length idx <= 31.
Proof. apply daysInMonth_range. Qed.

Lemma first_of_month_step idx :
  first_of_month (idx + 1) = first_of_month idx + month_length idx.
Proof.
  unfold first_of_month, month_length.
  assert (Hm : 1 <= idx mod 12 + 1 <= 12).
  { pose proof (Z.mod_pos_bound idx 12 eq_refl). lia. }
  pose proof (end_of_month (idx / 12) (idx mod 12 + 1) Hm) as He.
  rewrite (days_from_civil_linear _ _ (daysInMonth _ _)) in He.
  replace ((idx + 1) / 12) with (idx / 12 + (idx mod 12 + 1) / 12)
    by (Z.div_mod_to_equations; lia).
  replace ((idx + 1) mod 12 + 1) with ((idx mod 12 + 1) mod 12 + 1)
    by (Z.div_mod_to_equations; lia).
  lia.
Qed.

Lemma first_of_month_grows idx k :
  0 <= k -> first_of_month idx + 28 * k <= first_of_month (idx + k).
Proof.
  intros Hk. revert k Hk. apply natlike_ind.
  - replace (idx + 0) with idx by lia. lia.
  - intros k Hk IH.
    replace (idx + Z.succ k) with (idx + k + 1) by lia.
    rewrite first_of_month_step.
    pose proof (month_length_range (idx + k)). lia.
Qed.

Lemma getDate_range t :
  1 <= getDate t <= month_length (month_index t).
Proof.
  pose proof (civil_day_range (Day t)) as H.
  rewrite civil_fields in H. cbn [fst snd] in H.
  pose proof (getMonth_range t) as Hm.
  unfold month_length, month_index.
  replace ((getFullYear t * 12 + getMonth t) / 12) with (getFullYear t)
    by (Z.div_mod_to_equations; lia).
  replace ((getFullYear t * 12 + getMonth t) mod 12 + 1) with (getMonth t + 1)
    by (Z.div_mod_to_equations; lia).
  exact H.
Qed.

Lemma Day_by_month t :
  Day t = first_of_month (month_index t) + getDate t - 1.
Proof.
  pose proof (getMonth_range t) as Hm.
  rewrite <- (day_of_fields t), days_from_civil_linear.
  unfold first_of_month, month_index.
  replace ((getFullYear t * 12 + getMonth t) / 12) with (getFullYear t)
    by (Z.div_mod_to_equations; lia).
  replace ((getFullYear t * 12 + getMonth t) mod 12 + 1) with (getMonth t + 1)
    by (Z.div_mod_to_equations; lia).
  reflexivity.
Qed.

Lemma subMonths_day now n :
  n <> 0 ->
  subMonths now n
  = MakeDate (first_of_month (month_index now - n)
              + Z.min (getDate now) (month_length (month_index now - n)) - 1)
      (TimeWithinDay now).
Proof.
  intros Hn. rewrite (subMonths_calendar now n Hn), civil_fields.
  unfold months_before, at_day, first_of_month, month_length, month_index.
  replace (getFullYear now * 12 + (getMonth now + 1 - 1) - n)
    with (getFullYear now * 12 + getMonth now - n) by lia.
  rewrite days_from_civil_linear. reflexivity.
Qed.

Lemma year_back_day now :
  setFullYear1 now (getFullYear now - 1)
  = MakeDate (first_of_month (month_index now - 12) + getDate now - 1)
      (TimeWithinDay now).
Proof.
  pose proof (getMonth_range now) as Hm.
  rewrite setFullYear1_calendar. unfold at_day, first_of_month, month_index.
  rewrite days_from_civil_linear.
  replace ((getFullYear now * 12 + getMonth now - 12) / 12) with (getFullYear now - 1)
    by (Z.div_mod_to_equations; lia).
  replace ((getFullYear now * 12 + getMonth now - 12) mod 12 + 1) with (getMonth now + 1)
    by (Z.div_mod_to_equations; lia).
  reflexivity.
Qed.

Lemma week_back_day now :
  setDate now (getDate now - 7)
  = MakeDate (first_of_month (month_index now) + getDate now - 8)
      (TimeWithinDay now).
Proof.
  rewrite setDate_week. rewrite <- (MakeDate_Day now) at 1.
  rewrite (Day_by_month now). unfold MakeDate, msPerDay. lia.
Qed.

Lemma months_back_ordered now a b :
  0 < b < a ->
  subMonths now a <= subMonths now b.
Proof.
  intros H. rewrite !subMonths_day by lia. unfold MakeDate.
  pose proof (getDate_range now) as Hd.
  pose proof (month_length_range (month_index now - a)) as Ha.
  pose proof (month_length_range (month_index now - b)) as Hb.
  pose proof (first_of_month_step (month_index now - a)) as Hs.
  pose proof (first_of_month_grows (month_index now - a + 1) (a - b - 1) ltac:(lia)) as Hg.
  replace (month_index now - a + 1 + (a - b - 1)) with (month_index now - b) in Hg by lia.
  unfold msPerDay. nia.
Qed.

Lemma cutoffs_ordered now :
  setFullYear1 now (getFullYear now - 1) <= subMonths now 6
  /\ subMonths now 6 <= subMonths now 3
  /\ subMonths now 3 <= subMonths now 1
  /\ subMonths now 1 <= setDate now (getDate now - 7)
  /\ setDate now (getDate now - 7) <= now.
Proof.
  pose proof (getDate_range now) as Hd.
  pose proof (month_length_range (month_index now)) as H0.
  split; [|split; [|split; [|split]]].
  - rewrite year_back_day, subMonths_day by discriminate. unfold MakeDate, msPerDay.
    pose proof (first_of_month_grows (month_index now - 12) 6 ltac:(lia)) as Hg.
    replace (month_index now - 12 + 6) with (month_index now - 6) in Hg by lia.
    pose proof (month_length_range (month_index now - 6)). lia.
  - apply months_back_ordered. lia.
  - apply months_back_ordered. lia.
  - rewrite week_back_day, subMonths_day by discriminate. unfold MakeDate, msPerDay.
    pose proof (first_of_month_step (month_index now - 1)) as Hs.
    replace (month_index now - 1 + 1) with (month_index now) in Hs by lia.
    pose proof (month_length_range (month_index now - 1)). lia.
  - rewrite setDate_week. unfold msPerDay. lia.
Qed.

(** ** The window filter and the sort, continued *)

Lemma cutoff_not_after_now now timePeriod cutoff :
  cutoffDate now timePeriod = Some cutoff -> cutoff <= now.
Proof.
  pose proof (cutoffs_ordered now) as (Hy & H6 & H3 & H1 & Hw).
  unfold cutoffDate.
  destruct (String.eqb timePeriod WEEK); [intros E; injection E as <-; lia|].
  destruct (String.eqb timePeriod MONTH); [intros E; injection E as <-; lia|].
  destruct (String.eqb timePeriod THREE_MONTHS); [intros E; injection E as <-; lia|].
  destruct (String.eqb timePeriod SIX_MONTHS); [intros E; injection E as <-; lia|].
  destruct (String.eqb timePeriod YEAR); [intros E; injection E as <-; lia|].
  discriminate.
Qed.

Lemma date_ge_mono d c1 c2 : c2 <= c1 -> date_ge d c1 = true -> date_ge d c2 = true.
Proof.
  destruct d as [t|]; cbn [date_ge]; [|discriminate].
  rewrite !Z.leb_le. lia.
Qed.

Lemma filter_date_ge_incl c1 c2 (l : list HealthDataPoint) :
  c2 <= c1 ->
  incl (filter (fun item => date_ge (parse (date item)) c1) l)
       (filter (fun item => date_ge (parse (date item)) c2) l).
Proof.
  intros H item Hin. apply filter_In in Hin as [Hin Hge].
  apply filter_In. split; [exact Hin|].
  exact (date_ge_mono _ c1 c2 H Hge).
Qed.

Lemma filteredData_incl now timePeriod healthData :
  incl (filteredData now timePeriod healthData) healthData.
Proof.
  destruct (cutoffDate now timePeriod) as [c|] eqn:E.
  - rewrite (filteredData_bounded _ _ _ _ E). apply incl_filter.
  - rewrite (filteredData_unbounded _ _ _ E). apply incl_refl.
Qed.

(** X8.  The periods are nested: what [7D] selects is selected by [1M],
    what [1M] selects by [3M], then [6M], [1Y] and [ALL]. *)
Theorem longer_period_selects_more now healthData :
  incl (filteredData now WEEK healthData) (filteredData now MONTH healthData)
  /\ incl (filteredData now MONTH healthData)
          (filteredData now THREE_MONTHS healthData)
  /\ incl (filteredData now THREE_MONTHS healthData)
          (filteredData now SIX_MONTHS healthData)
  /\ incl (filteredData now SIX_MONTHS healthData)
          (filteredData now YEAR healthData)
  /\ incl (filteredData now YEAR healthData) (filteredData now ALL healthData).
Proof.
  pose proof (cutoffs_ordered now) as (Hy & H6 & H3 & H1 & Hw).
  rewrite (filteredData_bounded now WEEK healthData _ eq_refl).
  rewrite (filteredData_bounded now MONTH healthData _ eq_refl).
  rewrite (filteredData_bounded now THREE_MONTHS healthData _ eq_refl).
  rewrite (filteredData_bounded now SIX_MONTHS healthData _ eq_refl).
  rewrite (filteredData_bounded now YEAR healthData _ eq_refl).
  rewrite (filteredData_unbounded now ALL healthData eq_refl).
  repeat split; try (apply filter_date_ge_incl; assumption).
  apply incl_filter.
Qed.

(** X9.  No upper bound: a data point of the collection dated at or after
    [now] is selected under every period, whatever the period string. *)
Theorem future_records_are_selected now timePeriod healthData item t :
  In item healthData -> parse (date item) = Some t -> now <= t ->
  In item (filteredData now timePeriod healthData).
Proof.
  intros Hin Hp Ht.
  destruct (cutoffDate now timePeriod) as [c|] eqn:E.
  - rewrite (filteredData_bounded _ _ _ _ E). apply filter_In.
    split; [exact Hin|]. rewrite Hp. cbn [date_ge]. apply Z.leb_le.
    pose proof (cutoff_not_after_now _ _ _ E). lia.
  - rewrite (filteredData_unbounded _ _ _ E). exact Hin.
Qed.

Lemma future_records_are_selected_witness :
  In mar10 (filteredData 1741564800000 MONTH [mar1; mar10]).
Proof.
  apply (future_records_are_selected 1741564800000 MONTH [mar1; mar10] mar10
           1741564800000).
  - right. left. reflexivity.
  - reflexivity.
  - lia.
Defined.

Lemma filter_twice {A} (f : A -> bool) l : filter f (filter f l) = filter f l.
Proof.
  induction l as [|a l IH]; cbn [filter]; [reflexivity|].
  destruct (f a) eqn:E; cbn [filter]; rewrite ?E, IH; reflexivity.
Qed.

(** X7.  The window filter decides each data point on its own: it
    distributes over concatenation, filtering a second time changes
    nothing, and it only selects data points of the collection. *)
Theorem window_filter_is_recordwise now timePeriod (l1 l2 : list HealthDataPoint) :
  filteredData now timePeriod (l1 ++ l2)
  = filteredData now timePeriod l1 ++ filteredData now timePeriod l2
  /\ filteredData now timePeriod (filteredData now timePeriod l1)
     = filteredData now timePeriod l1
  /\ incl (filteredData now timePeriod l1) l1.
Proof.
  split; [|split].
  - destruct (cutoffDate now timePeriod) as [c|] eqn:E.
    + rewrite !(filteredData_bounded _ _ _ _ E). apply filter_app.
    + rewrite !(filteredData_unbounded _ _ _ E). reflexivity.
  - destruct (cutoffDate now timePeriod) as [c|] eqn:E.
    + rewrite !(filteredData_bounded _ _ _ _ E). apply filter_twice.
    + rewrite !(filteredData_unbounded _ _ _ E). reflexivity.
  - apply filteredData_incl.
Qed.

Lemma sort_sorted_id l :
  StronglySorted date_le l -> sortedData l = l.
Proof.
  unfold sortedData. induction 1 as [|x r Hr IH Hx]; cbn [sort]; [reflexivity|].
  rewrite IH. destruct r as [|y r']; [reflexivity|].
  cbn [sort_insert].
  apply Forall_cons_iff in Hx as [Hxy _].
  unfold after, byDate. unfold date_le in Hxy.
  destruct (Date_getTime (date x)) as [tx|]; [|reflexivity].
  destruct (Date_getTime (date y)) as [ty|]; [|reflexivity].
  replace (0 <? tx - ty) with false by (symmetry; apply Z.ltb_ge; lia).
  reflexivity.
Qed.

(** X10.  On dated data points the sort is idempotent, and data points
    already in date order are left exactly as they are. *)
Theorem sorting_again_changes_nothing filtered :
  Forall dated filtered ->
  sortedData (sortedData filtered) = sortedData filtered
  /\ (StronglySorted date_le filtered -> sortedData filtered = filtered).
Proof.
  intros H. split.
  - apply sort_sorted_id. apply sortedData_sorted. exact H.
  - apply sort_sorted_id.
Qed.

Lemma sorting_again_changes_nothing_witness :
  sortedData (sortedData [jan2; jan1]) = sortedData [jan2; jan1].
Proof.
  apply (sorting_again_changes_nothing [jan2; jan1]).
  constructor; [discriminate|]. constructor; [discriminate|]. constructor.
Defined.

(** ** Bounds of the summary *)

Lemma num_le_refl a : a <> NaN -> num_le a a.
Proof. destruct a; cbn; intros H; try exact I; [contradiction|apply Qle_refl]. Qed.

Lemma num_le_trans a b c : num_le a b -> num_le b c -> num_le a c.
Proof.
  destruct a, b, c; cbn; try tauto. apply Qle_trans.
Qed.

Lemma num_min_lower a b :
  a <> NaN -> b <> NaN ->
  num_min a b <> NaN /\ num_le (num_min a b) a /\ num_le (num_min a b) b.
Proof.
  intros Ha Hb. destruct a, b; try contradiction; cbn [num_min];
    try (repeat split; cbn; try discriminate; try exact I; apply Qle_refl).
  destruct (Qle_bool q q0) eqn:E; repeat split; cbn; try discriminate.
  - apply Qle_refl.
  - apply Qle_bool_iff. exact E.
  - apply Qlt_le_weak. apply Qnot_le_lt. intros H.
    apply Qle_bool_iff in H. congruence.
  - apply Qle_refl.
Qed.

Lemma num_max_upper a b :
  a <> NaN -> b <> NaN ->
  num_max a b <> NaN /\ num_le a (num_max a b) /\ num_le b (num_max a b).
Proof.
  intros Ha Hb. destruct a, b; try contradiction; cbn [num_max];
    try (repeat split; cbn; try discriminate; try exact I; apply Qle_refl).
  destruct (Qle_bool q q0) eqn:E; repeat split; cbn; try discriminate.
  - apply Qle_bool_iff. exact E.
  - apply Qle_refl.
  - apply Qle_refl.
  - apply Qlt_le_weak. apply Qnot_le_lt. intros H.
    apply Qle_bool_iff in H. congruence.
Qed.

Lemma fold_min_lower vs :
  forall acc, acc <> NaN -> (forall v, In v vs -> v <> NaN) ->
  fold_left num_min vs acc <> NaN
  /\ num_le (fold_left num_min vs acc) acc
  /\ forall v, In v vs -> num_le (fold_left num_min vs acc) v.
Proof.
  induction vs as [|x vs IH]; intros acc Hacc Hvs; cbn [fold_left].
  - repeat split; [exact Hacc|apply num_le_refl; exact Hacc|intros v []].
  - destruct (num_min_lower acc x Hacc (Hvs x (or_introl eq_refl)))
      as (Hn & Ha & Hx).
    destruct (IH (num_min acc x) Hn (fun v Hv => Hvs v (or_intror Hv)))
      as (Hn' & Hm & Hall).
    repeat split; [exact Hn'|exact (num_le_trans _ _ _ Hm Ha)|].
    intros v [<-|Hv]; [exact (num_le_trans _ _ _ Hm Hx)|exact (Hall v Hv)].
Qed.

Lemma fold_max_upper vs :
  forall acc, acc <> NaN -> (forall v, In v vs -> v <> NaN) ->
  fold_left num_max vs acc <> NaN
  /\ num_le acc (fold_left num_max vs acc)
  /\ forall v, In v vs -> num_le v (fold_left num_max vs acc).
Proof.
  induction vs as [|x vs IH]; intros acc Hacc Hvs; cbn [fold_left].
  - repeat split; [exact Hacc|apply num_le_refl; exact Hacc|intros v []].
  - destruct (num_max_upper acc x Hacc (Hvs x (or_introl eq_refl)))
      as (Hn & Ha & Hx).
    destruct (IH (num_max acc x) Hn (fun v Hv => Hvs v (or_intror Hv)))
      as (Hn' & Hm & Hall).
    repeat split; [exact Hn'|exact (num_le_trans _ _ _ Ha Hm)|].
    intros v [<-|Hv]; [exact (num_le_trans _ _ _ Hx Hm)|exact (Hall v Hv)].
Qed.

Lemma eligible_not_NaN tab filtered v :
  In v (eligible_values tab filtered) -> v <> NaN.
Proof.
  intros H E. subst v. apply eligible_positive in H. discriminate H.
Qed.

Lemma min_is_lower_bound tab filtered x :
  In x (eligible_values tab filtered) ->
  num_le (min (getMinMaxValues tab filtered)) x.
Proof.
  assert (Hnn := eligible_not_NaN tab filtered).
  rewrite <- positive_only_eligible in *.
  destruct filtered as [|item rest]; [intros []|].
  cbn [getMinMaxValues min].
  destruct (positive_only (map (metricOf tab) (item :: rest))) as [|a vs] eqn:E;
    [intros []|].
  intros Hx. unfold Math_min.
  apply (fold_min_lower (a :: vs) PInf); [discriminate|exact Hnn|exact Hx].
Qed.

Lemma max_is_upper_bound tab filtered x :
  In x (eligible_values tab filtered) ->
  num_le x (max (getMinMaxValues tab filtered)).
Proof.
  assert (Hnn := eligible_not_NaN tab filtered).
  rewrite <- positive_only_eligible in *.
  destruct filtered as [|item rest]; [intros []|].
  cbn [getMinMaxValues max].
  destruct (positive_only (map (metricOf tab) (item :: rest))) as [|a vs] eqn:E;
    [intros []|].
  intros Hx. unfold Math_max.
  apply (fold_max_upper (a :: vs) NInf); [discriminate|exact Hnn|exact Hx].
Qed.

(** X11.  When there is an eligible value, the reported minimum is at most
    every eligible value and the reported maximum at least every one, the
    minimum is at most the maximum, and the minimum is greater than
    zero. *)
Theorem min_and_max_bound_the_eligible_values tab filtered v :
  In v (eligible_values tab filtered) ->
  num_le (min (getMinMaxValues tab filtered)) v
  /\ num_le v (max (getMinMaxValues tab filtered))
  /\ num_le (min (getMinMaxValues tab filtered))
            (max (getMinMaxValues tab filtered))
  /\ num_gt (min (getMinMaxValues tab filtered)) (Fin 0) = true.
Proof.
  intros Hv.
  pose proof (min_is_lower_bound tab filtered v Hv) as Hlo.
  pose proof (max_is_upper_bound tab filtered v Hv) as Hhi.
  repeat split; [exact Hlo|exact Hhi|exact (num_le_trans _ _ _ Hlo Hhi)|].
  destruct (minmax_members tab filtered) as [He|[Hmin _]].
  - rewrite He in Hv. destruct Hv.
  - apply (eligible_positive tab filtered). exact Hmin.
Qed.

Lemma min_and_max_bound_witness :
  num_le (min (getMinMaxValues TabSteps [jan2; jan1])) (Fin 7000).
Proof.
  apply (min_and_max_bound_the_eligible_values TabSteps [jan2; jan1] (Fin 7000)).
  left. reflexivity.
Defined.






(** ** The chart section *)

Lemma chartProp_inv tab filtered d :
  chartProp tab filtered = Ok d ->
  seriesValues d = map (metricOf tab) (sortedData filtered)
  /\ List.length (labels d) = List.length filtered.
Proof.
  unfold chartProp. intros H.
  destruct (chartData tab filtered) as [[c|]|e] eqn:E; cbn [bind] in H;
    try discriminate H; injection H as <-.
  - destruct (chartData_inv tab filtered c E) as (_ & Hl & _).
    split; [exact (seriesValues_chartData tab filtered c E)|].
    rewrite (map_result_length _ _ _ Hl). apply sort_length.
  - destruct filtered as [|a r]; [split; reflexivity|].
    unfold chartData in E.
    destruct (map_result _ (sortedData (a :: r))); discriminate E.
Qed.

Lemma isDataEmpty_spec tab filtered :
  isDataEmpty tab filtered = true
  <-> forall item, In item filtered -> num_gt (metricOf tab item) (Fin 0) = false.
Proof.
  unfold isDataEmpty. destruct filtered as [|a r]; [split; [intros _ item []|reflexivity]|].
  rewrite negb_true_iff. split.
  - intros H item Hin.
    destruct (num_gt (metricOf tab item) (Fin 0)) eqn:E; [|reflexivity].
    assert (Hex : existsb (fun d => num_gt (metricOf tab d) (Fin 0)) (a :: r) = true).
    { apply existsb_exists. exists item. split; assumption. }
    congruence.
  - intros H.
    destruct (existsb (fun d => num_gt (metricOf tab d) (Fin 0)) (a :: r)) eqn:E;
      [|reflexivity].
    apply existsb_exists in E as (item & Hin & Hgt).
    rewrite (H item Hin) in Hgt. discriminate Hgt.
Qed.

Lemma isDataEmpty_series tab filtered d :
  chartProp tab filtered = Ok d ->
  (isDataEmpty tab filtered = true
   <-> forall v, In v (seriesValues d) -> num_gt v (Fin 0) = false).
Proof.
  intros H. destruct (chartProp_inv tab filtered d H) as [Hs _].
  rewrite Hs, isDataEmpty_spec. split.
  - intros Hall v Hv. apply in_map_iff in Hv as (item & <- & Hin).
    apply Hall. apply (Permutation_in _ (sortedData_perm filtered)). exact Hin.
  - intros Hall item Hin. apply Hall. apply in_map.
    apply (Permutation_in _ (Permutation_sym (sortedData_perm filtered))). exact Hin.
Qed.

(** X13.  When the chart section draws the line chart, loading is over,
    the series plotted has a value greater than zero and one label per
    selected data point, and the three cards show numbers. *)
Theorem line_chart_is_drawn_with_a_positive_point loading tab filtered d :
  chartSection loading tab filtered = Ok (ViewLine d) ->
  loading = false
  /\ chartProp tab filtered = Ok d
  /\ (exists v, In v (seriesValues d) /\ num_gt v (Fin 0) = true)
  /\ List.length (labels d) = List.length filtered
  /\ averageCard loading tab filtered
     = CardValue (average (getMetricInfo tab filtered))
                 (unit (getMetricInfo tab filtered))
  /\ minCard loading tab filtered
     = CardValue (min (getMinMaxValues tab filtered))
                 (unit (getMetricInfo tab filtered))
  /\ maxCard loading tab filtered
     = CardValue (max (getMinMaxValues tab filtered))
                 (unit (getMetricInfo tab filtered)).
Proof.
  unfold chartSection. intros H.
  destruct (chartProp tab filtered) as [d'|e] eqn:E; cbn [bind] in H;
    [|discriminate H].
  unfold AppleStyleChart in H.
  destruct loading; [discriminate H|].
  destruct (isDataEmpty tab filtered) eqn:Ee; [discriminate H|].
  injection H as <-.
  destruct (chartProp_inv tab filtered d' E) as [Hs Hl].
  split; [reflexivity|]. split; [reflexivity|]. split.
  - destruct (existsb (fun v => num_gt v (Fin 0)) (seriesValues d')) eqn:Ex.
    + apply existsb_exists in Ex. exact Ex.
    + exfalso.
      assert (Hall : forall v, In v (seriesValues d') -> num_gt v (Fin 0) = false).
      { intros v Hv. destruct (num_gt v (Fin 0)) eqn:Ev; [|reflexivity].
        assert (existsb (fun v => num_gt v (Fin 0)) (seriesValues d') = true)
          by (apply existsb_exists; exists v; split; assumption).
        congruence. }
      apply (isDataEmpty_series tab filtered d' E) in Hall. congruence.
  - split; [exact Hl|].
    unfold averageCard, minCard, maxCard, card. rewrite Ee. repeat split.
Qed.

Lemma line_chart_witness :
  exists v, In v (seriesValues
                    {| labels := ["1月 1"%string; "1月 2"%string];
                       datasets := [dataset_of TabSteps [jan1; jan2]] |})
            /\ num_gt v (Fin 0) = true.
Proof.
  apply (line_chart_is_drawn_with_a_positive_point false TabSteps [jan2; jan1]).
  reflexivity.
Defined.

(** X14.  Once loading is over, the empty state is shown exactly when no
    value of the series is greater than zero, which is exactly when the
    cards show "no data"; while loading, the spinner is shown. *)
Theorem empty_state_iff_no_positive_point tab filtered d :
  chartProp tab filtered = Ok d ->
  (chartSection false tab filtered = Ok ViewEmpty
   <-> forall v, In v (seriesValues d) -> num_gt v (Fin 0) = false)
  /\ (chartSection false tab filtered = Ok ViewEmpty
      <-> averageCard false tab filtered = CardNoData)
  /\ chartSection true tab filtered = Ok ViewLoading.
Proof.
  intros H. unfold chartSection. rewrite H. cbn [bind AppleStyleChart].
  pose proof (isDataEmpty_series tab filtered d H) as Hiff.
  unfold averageCard, card.
  destruct (isDataEmpty tab filtered).
  - repeat split; try reflexivity.
    + intros _. apply Hiff. reflexivity.
  - repeat split; try discriminate.
    + intros Hall. apply Hiff in Hall. discriminate Hall.
Qed.

Lemma empty_state_witness :
  chartSection true TabSteps [jan2; jan1] = Ok ViewLoading.
Proof.
  apply (empty_state_iff_no_positive_point TabSteps [jan2; jan1]
           {| labels := ["1月 1"%string; "1月 2"%string];
              datasets := [dataset_of TabSteps [jan1; jan2]] |}).
  reflexivity.
Defined.

(** ** Dates in print *)

Lemma digits_fuel_length fuel :
  forall n k, 0 <= n < 10 ^ Z.of_nat k -> (1 <= k)%nat ->
    (1 <= List.length (digits_fuel (S fuel) n []) <= k)%nat.
Proof.
  induction fuel as [|f IH]; intros n k Hn Hk.
  - cbn [digits_fuel]. destruct (n <? 10); cbn [List.length]; lia.
  - change (digits_fuel (S (S f)) n [])
      with (if n <? 10 then [digit_char n]
            else digits_fuel (S f) (n / 10) [digit_char (n mod 10)]).
    destruct (n <? 10) eqn:E; [cbn [List.length]; lia|].
    apply Z.ltb_ge in E. rewrite digits_fuel_acc, length_app. cbn [List.length].
    destruct k as [|[|k']]; [lia| |].
    + change (10 ^ Z.of_nat 1) with 10 in Hn. lia.
    + assert (Hq : 0 <= n / 10 < 10 ^ Z.of_nat (S k')).
      { rewrite (Nat2Z.inj_succ (S k')), Z.pow_succ_r in Hn by lia.
        split; [apply Z.div_pos; lia|apply Z.div_lt_upper_bound; lia]. }
      pose proof (IH (n / 10) (S k') Hq ltac:(lia)). lia.
Qed.

Lemma digits_of_Z_length n k :
  0 <= n < 10 ^ Z.of_nat k -> (1 <= k)%nat ->
  (1 <= List.length (digits_of_Z n) <= k)%nat.
Proof. intros Hn Hk. unfold digits_of_Z. apply digits_fuel_length; assumption. Qed.

Lemma pad_zeros_length len l :
  (List.length l <= len)%nat -> List.length (pad_zeros len l) = len.
Proof. intros H. unfold pad_zeros. rewrite length_app, repeat_length. lia. Qed.

(** A number below 10^k, printed on k digits. *)
Lemma padded_spec k n :
  0 <= n < 10 ^ Z.of_nat k -> (1 <= k)%nat ->
  List.length (pad_zeros k (digits_of_Z n)) = k
  /\ forallb is_digit (pad_zeros k (digits_of_Z n)) = true
  /\ Z_of_digits (pad_zeros k (digits_of_Z n)) = n.
Proof.
  intros Hn Hk.
  destruct (digits_of_Z_spec n ltac:(lia)) as [Hd Hv].
  destruct (pad_zeros_spec k _ Hd) as (Hpd & Hpv & _).
  split; [|split; [exact Hpd|congruence]].
  apply pad_zeros_length. apply digits_of_Z_length; assumption.
Qed.

Lemma take_upto_digits_exact k ds rest :
  List.length ds = k -> forallb is_digit ds = true ->
  take_upto_digits k (ds ++ rest) = (ds, rest).
Proof.
  revert ds. induction k as [|k IH]; intros ds Hl Hd.
  - destruct ds; [|discriminate Hl]. cbn. destruct rest; reflexivity.
  - destruct ds as [|c ds]; [discriminate Hl|].
    cbn [forallb] in Hd. apply andb_prop in Hd as [Hc Hds].
    cbn [app take_upto_digits]. rewrite Hc, (IH ds); [reflexivity|..].
    + cbn in Hl. lia.
    + exact Hds.
Qed.

Lemma parse_token_exact k ds rest :
  (1 <= k)%nat -> List.length ds = k -> forallb is_digit ds = true ->
  parse_token k (ds ++ rest) = Some (Z_of_digits ds, rest).
Proof.
  intros Hk Hl Hd. unfold parse_token.
  rewrite (take_upto_digits_exact k ds rest Hl Hd).
  destruct ds; [cbn in Hl; lia|reflexivity].
Qed.

Lemma exact_digits_exact k ds rest :
  List.length ds = k -> forallb is_digit ds = true ->
  exact_digits k (ds ++ rest) = Some (Z_of_digits ds, rest).
Proof.
  intros Hl Hd. unfold exact_digits.
  assert (Hf : firstn k (ds ++ rest) = ds).
  { rewrite firstn_app, <- Hl, Nat.sub_diag, firstn_all. cbn [firstn].
    apply app_nil_r. }
  assert (Hs : skipn k (ds ++ rest) = rest).
  { rewrite skipn_app, <- Hl, Nat.sub_diag, skipn_all. reflexivity. }
  rewrite Hf, Hs, Hl, Nat.eqb_refl, Hd. reflexivity.
Qed.

Lemma day_in_month t :
  1 <= getDate t <= daysInMonth (getFullYear t) (getMonth t + 1).
Proof.
  pose proof (civil_day_range (Day t)) as H.
  rewrite civil_fields in H. exact H.
Qed.

Lemma isoDate_chars t :
  0 <= YearFromTime t <= 9999 ->
  exists ys ms ds,
    chars (Route.isoDate t) = ys ++ "-"%char :: ms ++ "-"%char :: ds
    /\ List.length ys = 4%nat /\ forallb is_digit ys = true
    /\ Z_of_digits ys = getFullYear t
    /\ List.length ms = 2%nat /\ forallb is_digit ms = true
    /\ Z_of_digits ms = getMonth t + 1
    /\ List.length ds = 2%nat /\ forallb is_digit ds = true
    /\ Z_of_digits ds = getDate t.
Proof.
  intros Hy.
  pose proof (getMonth_range t) as Hm.
  pose proof (day_in_month t) as Hd.
  pose proof (daysInMonth_range (getFullYear t) (getMonth t + 1)) as Hr.
  destruct (padded_spec 4 (YearFromTime t)) as (Hl4 & Hd4 & Hv4);
    [change (10 ^ Z.of_nat 4) with 10000; lia|lia|].
  destruct (padded_spec 2 (MonthFromTime t + 1)) as (Hl2 & Hd2 & Hv2);
    [change (10 ^ Z.of_nat 2) with 100; unfold getMonth in Hm; lia|lia|].
  destruct (padded_spec 2 (DateFromTime t)) as (Hl3 & Hd3 & Hv3);
    [change (10 ^ Z.of_nat 2) with 100; unfold getDate in Hd; lia|lia|].
  eexists _, _, _. split.
  - unfold Route.isoDate. rewrite chars_of_list. reflexivity.
  - repeat split; assumption.
Qed.

(** The date string printed for an instant reads back, with either
    parser, as midnight of the instant's day. *)
Lemma isoDate_reads_back t :
  (0 <= YearFromTime t <= 9999 ->
   Date_getTime (Route.isoDate t) = Some (MakeDate (Day t) 0))
  /\ (1 <= YearFromTime t <= 9999 ->
      parse (Route.isoDate t) = Some (MakeDate (Day t) 0)).
Proof.
  pose proof (getMonth_range t) as Hm.
  pose proof (day_in_month t) as Hd.
  split; intros Hy.
  - destruct (isoDate_chars t Hy)
      as (ys & ms & ds & E & Hl1 & Hd1 & Hv1 & Hl2 & Hd2 & Hv2 & Hl3 & Hd3 & Hv3).
    unfold Date_getTime. rewrite E.
    rewrite (exact_digits_exact 4 ys _ Hl1 Hd1). cbn [parse_literal Ascii.eqb Bool.eqb].
    rewrite (exact_digits_exact 2 ms _ Hl2 Hd2). cbn [parse_literal Ascii.eqb Bool.eqb].
    rewrite <- (app_nil_r ds), (exact_digits_exact 2 ds [] Hl3 Hd3).
    rewrite Hv1, Hv2, Hv3.
    replace ((1 <=? getMonth t + 1) && (getMonth t + 1 <=? 12)
             && (1 <=? getDate t)
             && (getDate t <=? daysInMonth (getFullYear t) (getMonth t + 1)))
      with true.
    + rewrite day_of_fields. reflexivity.
    + symmetry. rewrite !andb_true_iff, !Z.leb_le. lia.
  - destruct (isoDate_chars t ltac:(lia))
      as (ys & ms & ds & E & Hl1 & Hd1 & Hv1 & Hl2 & Hd2 & Hv2 & Hl3 & Hd3 & Hv3).
    unfold parse. rewrite E.
    rewrite (parse_token_exact 4 ys _ ltac:(lia) Hl1 Hd1).
    cbn [parse_literal Ascii.eqb Bool.eqb].
    rewrite (parse_token_exact 2 ms _ ltac:(lia) Hl2 Hd2).
    cbn [parse_literal Ascii.eqb Bool.eqb].
    rewrite <- (app_nil_r ds), (parse_token_exact 2 ds [] ltac:(lia) Hl3 Hd3).
    cbn [skip_ws]. rewrite Hv1, Hv2, Hv3.
    replace (valid_ymd (getFullYear t) (getMonth t + 1) (getDate t)) with true.
    + rewrite day_of_fields. reflexivity.
    + symmetry. unfold valid_ymd. rewrite !andb_true_iff, !Z.leb_le, Z.ltb_lt.
      unfold getFullYear in *. lia.
Qed.







Lemma format_is_isoDate t : HomePage.format_yyyy_MM_dd t = Route.isoDate t.
Proof. reflexivity. Qed.



(** ** The generated test data and the pages it reaches *)

Lemma radix_digit_decimal c :
  is_digit c = true -> radix_digit 10 c = Some (digit_val c).
Proof.
  intros H. unfold radix_digit, digit_val. unfold is_digit in H. rewrite H.
  apply is_digit_code in H.
  replace (code c - 48 <? 10) with true by (symmetry; apply Z.ltb_lt; lia).
  reflexivity.
Qed.

Lemma radix_prefix_digits l :
  forall acc, forallb is_digit l = true -> l <> [] ->
  radix_prefix 10 l acc
  = Some (fold_left (fun a c => 10 * a + digit_val c) l
            match acc with Some a => a | None => 0 end).
Proof.
  induction l as [|c r IH]; intros acc Hd Hne; [contradiction|].
  cbn [forallb] in Hd. apply andb_prop in Hd as [Hc Hr].
  cbn [radix_prefix fold_left]. rewrite (radix_digit_decimal c Hc).
  destruct r as [|c2 r'].
  - reflexivity.
  - rewrite (IH _ Hr ltac:(discriminate)). reflexivity.
Qed.

Lemma no_hex_prefix c c2 r :
  is_digit c2 = true ->
  match c :: c2 :: r with
  | "0"%char :: "x"%char :: r0 => (16, r0)
  | "0"%char :: "X"%char :: r0 => (16, r0)
  | _ => (10, c :: c2 :: r)
  end = (10, c :: c2 :: r).
Proof.
  intros H.
  destruct c as [[] [] [] [] [] [] [] []]; try reflexivity.
  destruct c2 as [[] [] [] [] [] [] [] []]; try reflexivity; discriminate H.
Qed.

(** A string of decimal digits is read by [parseInt] as its value. *)
Lemma parseInt_digits l :
  l <> [] -> forallb is_digit l = true ->
  parseInt (string_of_list_ascii l) = Fin (inject_Z (Z_of_digits l)).
Proof.
  intros Hne Hd. unfold parseInt. rewrite chars_of_list.
  destruct l as [|c r]; [contradiction|].
  pose proof Hd as Hd'. cbn [forallb] in Hd'. apply andb_prop in Hd' as [Hc Hr].
  rewrite (skip_ws_digit c r Hc).
  destruct (digit_head_plain c r Hc) as [Hs _]. rewrite Hs.
  assert (Hsel : match c :: r with
                 | "0"%char :: "x"%char :: r0 => (16, r0)
                 | "0"%char :: "X"%char :: r0 => (16, r0)
                 | _ => (10, c :: r)
                 end = (10, c :: r)).
  { destruct r as [|c2 r'].
    - destruct c as [[] [] [] [] [] [] [] []]; reflexivity.
    - cbn [forallb] in Hr. apply andb_prop in Hr as [Hc2 _].
      apply no_hex_prefix. exact Hc2. }
  rewrite Hsel, (radix_prefix_digits (c :: r) None Hd Hne). reflexivity.
Qed.

Lemma digits_of_Z_nonempty n : digits_of_Z n <> [].
Proof.
  unfold digits_of_Z. cbn [digits_fuel].
  destruct (n <? 10); [discriminate|].
  rewrite digits_fuel_acc. intros H. apply app_eq_nil in H as [_ H].
  discriminate H.
Qed.

(** [parseInt(String(n))] is [n] for a non-negative integer. *)
Lemma parseInt_String n :
  0 <= n -> parseInt (String_of_Z n) = Fin (inject_Z n).
Proof.
  intros Hn. unfold String_of_Z.
  replace (n <? 0) with false by (symmetry; apply Z.ltb_ge; lia).
  destruct (digits_of_Z_spec n Hn) as [Hd Hv].
  rewrite (parseInt_digits _ (digits_of_Z_nonempty n) Hd), Hv. reflexivity.
Qed.

Lemma pow10_negative f :
  (1 <= f)%nat -> pow10 (0 - Z.of_nat f) = (1 / inject_Z (10 ^ Z.of_nat f))%Q.
Proof.
  intros H. unfold pow10.
  replace (0 <=? 0 - Z.of_nat f) with false by (symmetry; apply Z.leb_gt; lia).
  replace (- (0 - Z.of_nat f)) with (Z.of_nat f) by lia. reflexivity.
Qed.

(** [parseFloat(x.toFixed(f))] is [x] rounded to [f] places, for a
    non-negative [x] and at least one place. *)
Lemma toFixed_reads_back f q :
  (1 <= f)%nat -> (0 <= q)%Q ->
  num_eq (parseFloat (toFixed f (Fin q))) (Fin (round_places f q)).
Proof.
  intros Hf Hq. unfold toFixed, toFixed_digits.
  assert (Hneg : negb (Qle_bool 0 q) = false).
  { apply negb_false_iff. apply Qle_bool_iff. exact Hq. }
  rewrite Hneg.
  assert (Hpow : 0 < 10 ^ Z.of_nat f) by (apply Z.pow_pos_nonneg; lia).
  set (n := Qfloor (Qabs q * inject_Z (10 ^ Z.of_nat f) + (1 # 2))).
  assert (Hn : 0 <= n).
  { change 0 with (Qfloor 0). apply Qfloor_resp_le.
    rewrite Qabs_pos by exact Hq.
    apply (Qle_trans _ (q * inject_Z (10 ^ Z.of_nat f) + 0)).
    - rewrite Qplus_0_r. apply Qmult_le_0_compat; [exact Hq|].
      change 0%Q with (inject_Z 0). rewrite <- Zle_Qle. lia.
    - apply Qplus_le_r. discriminate. }
  destruct (digits_of_Z_spec n Hn) as [Hd Hv].
  destruct (pad_zeros_spec (S f) _ Hd) as (Hpd & Hpv & Hpl).
  set (m := pad_zeros (S f) (digits_of_Z n)) in *.
  set (k := (List.length m - f)%nat).
  assert (Hsplit : forallb is_digit (firstn k m) = true
                   /\ forallb is_digit (skipn k m) = true).
  { rewrite <- (firstn_skipn k m), forallb_app in Hpd.
    apply andb_prop in Hpd. exact Hpd. }
  destruct Hsplit as [Hip Hfp].
  assert (Hlen : List.length (skipn k m) = f).
  { rewrite length_skipn. unfold k. lia. }
  destruct f as [|f']; [lia|].
  rewrite parseFloat_decimal; [| | exact Hip | exact Hfp].
  - rewrite firstn_skipn, Hlen, Hpv, Hv, pow10_negative by lia.
    cbn [num_eq]. unfold round_places, n.
    rewrite Qabs_pos by exact Hq.
    field. change 0%Q with (inject_Z 0). rewrite inject_Z_injective. lia.
  - intros E. apply (f_equal (@List.length ascii)) in E.
    rewrite length_firstn in E. cbn [List.length] in E. unfold k in E. lia.
Qed.

Lemma setDate_next t : setDate t (getDate t + 1) = t + msPerDay.
Proof.
  unfold setDate. fold (getFullYear t) (getMonth t).
  replace (getMonth t) with (getMonth t + 1 - 1) by lia.
  rewrite MakeDay_normal by apply getMonth_range.
  rewrite days_from_civil_linear.
  replace (days_from_civil (getFullYear t) (getMonth t + 1) 1
             + (getDate t + 1) - 1)
    with (days_from_civil (getFullYear t) (getMonth t + 1) (getDate t) + 1)
    by (rewrite (days_from_civil_linear _ _ (getDate t)); lia).
  rewrite day_of_fields.
  rewrite <- (MakeDate_Day t) at 3. unfold MakeDate. lia.
Qed.

(** The loop of [generateTestData] in closed form. *)
Lemma generate_loop_points random startDate draws0 n :
  forall k0 data w,
    Route.draws w = (draws0 + 2 * k0)%nat ->
    Route.generate_loop random n (Z.of_nat k0)
      (startDate + Z.of_nat k0 * msPerDay) data w
    = (Ok (data ++ map (testPoint random startDate draws0) (seq k0 n)),
       {| Route.file := Route.file w;
          Route.draws := (Route.draws w + 2 * n)%nat |}).
Proof.
  induction n as [|n IH]; intros k0 data w Hw.
  - cbn [Route.generate_loop seq map]. unfold ret. rewrite app_nil_r.
    destruct w as [f d]. cbn. rewrite Nat.add_0_r. reflexivity.
  - cbn [Route.generate_loop]. unfold io_bind at 1, Route.Math_random at 1.
    unfold io_bind at 1, Route.Math_random at 1. cbn [Route.file Route.draws].
    rewrite setDate_next.
    replace (Z.of_nat k0 + 1) with (Z.of_nat (S k0)) by lia.
    replace (startDate + Z.of_nat k0 * msPerDay + msPerDay)
      with (startDate + Z.of_nat (S k0) * msPerDay) by lia.
    rewrite IH by (cbn [Route.draws]; lia).
    cbn [Route.file Route.draws seq map]. rewrite <- app_assoc. cbn [app].
    unfold testPoint at 2. rewrite Hw.
    f_equal. f_equal. lia.
Qed.

Lemma generateTestData_points random startDate days w :
  Route.generateTestData random startDate days w
  = (Ok (map (testPoint random startDate (Route.draws w)) (seq 0 days)),
     {| Route.file := Route.file w;
        Route.draws := (Route.draws w + 2 * days)%nat |}).
Proof.
  unfold Route.generateTestData.
  pose proof (generate_loop_points random startDate (Route.draws w) days 0 [] w
                ltac:(lia)) as H.
  cbn [Z.of_nat] in H. replace (startDate + 0 * msPerDay) with startDate in H by lia.
  exact H.
Qed.

Lemma Day_shift t k : Day (t + k * msPerDay) = Day t + k.
Proof. unfold Day. apply Z.div_add. discriminate. Qed.

Lemma testPoint_date_reads_back random startDate draws0 k :
  1 <= YearFromTime (startDate + Z.of_nat k * msPerDay) <= 9999 ->
  parse (date (testPoint random startDate draws0 k))
  = Some (MakeDate (Day startDate + Z.of_nat k) 0)
  /\ Date_getTime (date (testPoint random startDate draws0 k))
     = Some (MakeDate (Day startDate + Z.of_nat k) 0).
Proof.
  intros Hy. cbn [testPoint date].
  destruct (isoDate_reads_back (startDate + Z.of_nat k * msPerDay)) as [Hg Hp].
  rewrite (Hp Hy), (Hg ltac:(lia)), Day_shift. split; reflexivity.
Qed.



Lemma string_of_list_nonempty c l : or_zero (Some (string_of_list_ascii (c :: l)))
  = string_of_list_ascii (c :: l).
Proof. reflexivity. Qed.

Lemma or_zero_String_of_Z n : 0 <= n -> or_zero (Some (String_of_Z n)) = String_of_Z n.
Proof.
  intros Hn. unfold String_of_Z.
  replace (n <? 0) with false by (symmetry; apply Z.ltb_ge; lia).
  pose proof (digits_of_Z_nonempty n) as H.
  destruct (digits_of_Z n); [contradiction|reflexivity].
Qed.

Lemma steps_draw_range r :
  (0 <= r)%Q -> (r < 1)%Q ->
  5000 <= Qfloor (r * inject_Z (12000 - 5000 + 1)) + 5000 <= 12000.
Proof.
  intros H0 H1.
  assert (Hlo : 0 <= Qfloor (r * inject_Z (12000 - 5000 + 1))).
  { change 0 with (Qfloor 0). apply Qfloor_resp_le.
    apply Qmult_le_0_compat; [exact H0|discriminate]. }
  assert (Hhi : Qfloor (r * inject_Z (12000 - 5000 + 1)) < 7001).
  { rewrite Zlt_Qlt. apply (Qle_lt_trans _ (r * inject_Z (12000 - 5000 + 1))).
    - apply Qfloor_le.
    - change (inject_Z 7001) with (1 * inject_Z (12000 - 5000 + 1))%Q.
      apply Qmult_lt_compat_r; [reflexivity|exact H1]. }
  lia.
Qed.

Lemma toFixed_nonempty q : or_zero (Some (toFixed 2 (Fin q))) = toFixed 2 (Fin q).
Proof.
  unfold toFixed, toFixed_digits.
  match goal with
  | |- context [string_of_list_ascii ?l] =>
      assert (Hl : l <> [])
  end.
  { destruct (negb (Qle_bool 0 q)); [discriminate|].
    intros H. apply app_eq_nil in H as [_ H]. discriminate H. }
  match goal with
  | |- context [string_of_list_ascii ?l] => destruct l; [contradiction|reflexivity]
  end.
Qed.

Lemma round_places_positive f q :
  (inject_Z 1 <= q * inject_Z (10 ^ Z.of_nat f))%Q -> (0 < round_places f q)%Q.
Proof.
  intros H. unfold round_places.
  assert (Hpow : 0 < 10 ^ Z.of_nat f) by (apply Z.pow_pos_nonneg; lia).
  apply Qlt_shift_div_l.
  - change 0%Q with (inject_Z 0). rewrite <- Zlt_Qlt. exact Hpow.
  - rewrite Qmult_0_l. change 0%Q with (inject_Z 0). rewrite <- Zlt_Qlt.
    assert (1 <= Qfloor (q * inject_Z (10 ^ Z.of_nat f) + (1 # 2))).
    { rewrite <- (Qfloor_Z 1). apply Qfloor_resp_le.
      apply (Qle_trans _ _ _ H).
      rewrite <- (Qplus_0_r (q * inject_Z (10 ^ Z.of_nat f))) at 1.
      apply Qplus_le_r. discriminate. }
    lia.
Qed.

Lemma testPoint_readings random startDate draws0 k :
  (forall n, (0 <= random n)%Q /\ (random n < 1)%Q) ->
  (k <= 739)%nat ->
  let item := testPoint random startDate draws0 k in
  heartRate item = None
  /\ (exists s, 5000 <= s <= 12000 /\ stepsOf item = Fin (inject_Z s))
  /\ num_gt (weightOf item) (Fin 0) = true
  /\ exists n : Z, num_eq (weightOf item) (Fin (inject_Z n / 100)).
Proof.
  intros Hr Hk item. subst item. split; [reflexivity|]. split.
  - destruct (Hr (draws0 + 2 * k)%nat) as [H0 H1].
    pose proof (steps_draw_range _ H0 H1) as Hs.
    eexists. split; [exact Hs|].
    unfold stepsOf. cbn [testPoint steps].
    rewrite or_zero_String_of_Z by lia. apply parseInt_String. lia.
  - destruct (Hr (S (draws0 + 2 * k))) as [H0 H1].
    set (q := (75 - inject_Z (Z.of_nat k) * (1 # 10)
               + random (S (draws0 + 2 * k)) * 2 - 1)%Q).
    assert (Hq : ((1 # 10) <= q)%Q).
    { unfold q.
      assert (Hk10 : (inject_Z (Z.of_nat k) <= inject_Z 739)%Q)
        by (rewrite <- Zle_Qle; lia).
      setoid_replace (1 # 10)%Q
        with (75 - inject_Z 739 * (1 # 10) + 0 * 2 - 1)%Q by reflexivity.
      apply Qplus_le_l. apply Qplus_le_compat.
      - apply Qplus_le_r. apply Qopp_le_compat.
        apply Qmult_le_compat_r; [exact Hk10|discriminate].
      - apply Qmult_le_compat_r; [exact H0|discriminate]. }
    assert (Hq0 : (0 <= q)%Q) by (apply (Qle_trans _ (1 # 10)); [discriminate|exact Hq]).
    pose proof (toFixed_reads_back 2 q ltac:(lia) Hq0) as Hrb.
    unfold weightOf. cbn [testPoint weight]. fold q.
    rewrite toFixed_nonempty.
    destruct (parseFloat (toFixed 2 (Fin q))) as [| | |v];
      cbn [num_eq] in Hrb; try contradiction.
    split.
    + cbn [num_gt]. apply negb_true_iff.
      destruct (Qle_bool v 0) eqn:E; [|reflexivity].
      apply Qle_bool_iff in E. rewrite Hrb in E.
      exfalso. apply (Qlt_not_le _ _ (round_places_positive 2 q
        ltac:(change (inject_Z (10 ^ Z.of_nat 2)) with (inject_Z 100);
              apply (Qle_trans _ ((1 # 10) * inject_Z 100));
              [discriminate|apply Qmult_le_compat_r; [exact Hq|discriminate]]))).
      exact E.
    + exists (Qfloor (q * inject_Z (10 ^ Z.of_nat 2) + (1 # 2))).
      cbn [num_eq]. exact Hrb.
Qed.

(** X4.  With [Math.random] in [0, 1) and at most 740 days, every data
    point of [generateTestData] has no heart rate, a steps string that
    reads back as a whole number from 5000 to 12000, and a weight string
    that reads back as a positive number with two decimal places. *)
Theorem generated_readings_are_plausible random startDate days w :
  (forall n, (0 <= random n)%Q /\ (random n < 1)%Q) ->
  (days <= 740)%nat ->
  exists testData w',
    Route.generateTestData random startDate days w = (Ok testData, w')
    /\ forall item, In item testData ->
         heartRate item = None
         /\ (exists s, 5000 <= s <= 12000 /\ stepsOf item = Fin (inject_Z s))
         /\ num_gt (weightOf item) (Fin 0) = true
         /\ exists n : Z, num_eq (weightOf item) (Fin (inject_Z n / 100)).
Proof.
  intros Hr Hdays. rewrite generateTestData_points.
  eexists _, _. split; [reflexivity|].
  intros item Hin. apply in_map_iff in Hin as (k & <- & Hk).
  apply in_seq in Hk.
  apply (testPoint_readings random startDate (Route.draws w) k Hr). lia.
Qed.

Lemma generated_readings_witness :
  exists testData w',
    Route.generateTestData (fun _ => 1 # 2) 1735776000000 2
      {| Route.file := None; Route.draws := 0 |} = (Ok testData, w')
    /\ forall item, In item testData -> heartRate item = None.
Proof.
  destruct (generated_readings_are_plausible (fun _ => 1 # 2) 1735776000000 2
              {| Route.file := None; Route.draws := 0 |})
    as (testData & w' & H1 & H2).
  - intros n. split; [discriminate|reflexivity].
  - lia.
  - exists testData, w'. split; [exact H1|].
    intros item Hin. apply (H2 item Hin).
Defined.

Lemma GET_payload random w :
  Route.GET random w
  = ({| status := 200;
        body := Payload (map (testPoint random 1735776000000 (Route.draws w))
                           (seq 0 30)) |},
     {| Route.file :=
          Some (Records (map (testPoint random 1735776000000 (Route.draws w))
                           (seq 0 30)));
        Route.draws := (Route.draws w + 60)%nat |}).
Proof.
  unfold Route.GET, try_catch, io_bind, Route.gen.
  change (Date_getTime "2025-01-02") with (Some 1735776000000).
  unfold io_bind. rewrite generateTestData_points. reflexivity.
Qed.

Lemma served_years k :
  (k < 30)%nat ->
  1 <= YearFromTime (1735776000000 + Z.of_nat k * msPerDay) <= 9999.
Proof.
  intros Hk.
  assert (H : forallb
                (fun k => (1 <=? YearFromTime (1735776000000 + Z.of_nat k * msPerDay))
                          && (YearFromTime (1735776000000 + Z.of_nat k * msPerDay) <=? 9999))
                (seq 0 30) = true) by (vm_compute; reflexivity).
  rewrite forallb_forall in H. specialize (H k).
  rewrite andb_true_iff, !Z.leb_le in H. apply H. apply in_seq. lia.
Qed.

Lemma points_sorted random startDate draws0 n :
  forall k0,
    (forall k, (k0 <= k < k0 + n)%nat ->
       1 <= YearFromTime (startDate + Z.of_nat k * msPerDay) <= 9999) ->
    StronglySorted date_le (map (testPoint random startDate draws0) (seq k0 n)).
Proof.
  induction n as [|n IH]; intros k0 Hy; cbn [seq map]; constructor.
  - apply IH. intros k Hk. apply Hy. lia.
  - apply Forall_forall. intros item Hin.
    apply in_map_iff in Hin as (k & <- & Hk). apply in_seq in Hk.
    destruct (testPoint_date_reads_back random startDate draws0 k0 (Hy k0 ltac:(lia)))
      as [_ H0].
    destruct (testPoint_date_reads_back random startDate draws0 k (Hy k ltac:(lia)))
      as [_ H1].
    unfold date_le. rewrite H0, H1. unfold MakeDate, msPerDay. lia.
Qed.

(** X6.  The dashboard's derivations applied to what [GET] serves, with
    [Math.random] in [0, 1): the thirty data points are already in date
    order, the sort leaves them as they are, the series is built without
    an exception for every tab, the steps and weight tabs have data and
    the heart-rate tab has none. *)
Theorem dashboard_on_served_data random w tab :
  (forall n, (0 <= random n)%Q /\ (random n < 1)%Q) ->
  exists payload w',
    Route.GET random w = ({| status := 200; body := Payload payload |}, w')
    /\ Route.file w' = Some (Records payload)
    /\ List.length payload = 30%nat
    /\ StronglySorted date_le payload
    /\ sortedData payload = payload
    /\ (exists c, chartProp tab payload = Ok c)
    /\ isDataEmpty TabSteps payload = false
    /\ isDataEmpty TabWeight payload = false
    /\ isDataEmpty TabHeartRate payload = true.
Proof.
  intros Hr. rewrite GET_payload.
  set (payload := map (testPoint random 1735776000000 (Route.draws w)) (seq 0 30)).
  eexists payload, _. split; [reflexivity|]. split; [reflexivity|].
  assert (Hsorted : StronglySorted date_le payload).
  { apply points_sorted. intros k Hk. apply served_years. lia. }
  assert (Hreadings :
    forall item, In item payload ->
      heartRate item = None
      /\ (exists s, 5000 <= s <= 12000 /\ stepsOf item = Fin (inject_Z s))
      /\ num_gt (weightOf item) (Fin 0) = true
      /\ exists n : Z, num_eq (weightOf item) (Fin (inject_Z n / 100))).
  { intros item Hin. apply in_map_iff in Hin as (k & <- & Hk).
    apply in_seq in Hk.
    apply (testPoint_readings random 1735776000000 (Route.draws w) k Hr). lia. }
  assert (Hfirst : In (testPoint random 1735776000000 (Route.draws w) 0) payload).
  { unfold payload. apply in_map. apply in_seq. lia. }
  split; [unfold payload; rewrite length_map, length_seq; reflexivity|].
  split; [exact Hsorted|].
  split; [apply sort_sorted_id; exact Hsorted|].
  split; [|split; [|split]].
  - apply chartData_total. intros item Hin.
    apply in_map_iff in Hin as (k & <- & Hk). apply in_seq in Hk.
    destruct (testPoint_date_reads_back random 1735776000000 (Route.draws w) k
                (served_years k ltac:(lia))) as [Hp _].
    rewrite Hp. discriminate.
  - destruct (isDataEmpty TabSteps payload) eqn:E; [|reflexivity].
    rewrite isDataEmpty_spec in E. specialize (E _ Hfirst).
    destruct (Hreadings _ Hfirst) as (_ & (s & Hs & Es) & _).
    cbn [metricOf] in E. rewrite Es in E. cbn [num_gt] in E.
    apply negb_false_iff, Qle_bool_iff in E.
    change 0%Q with (inject_Z 0) in E. rewrite <- Zle_Qle in E. lia.
  - destruct (isDataEmpty TabWeight payload) eqn:E; [|reflexivity].
    rewrite isDataEmpty_spec in E. specialize (E _ Hfirst).
    destruct (Hreadings _ Hfirst) as (_ & _ & Hw & _).
    cbn [metricOf] in E. congruence.
  - apply isDataEmpty_spec. intros item Hin.
    destruct (Hreadings _ Hin) as (Hh & _).
    cbn [metricOf]. unfold heartRateOf. rewrite Hh. reflexivity.
Qed.

Lemma dashboard_on_served_data_witness :
  exists payload w',
    Route.GET (fun _ => 1 # 2) {| Route.file := None; Route.draws := 0 |}
    = ({| status := 200; body := Payload payload |}, w')
    /\ isDataEmpty TabHeartRate payload = true.
Proof.
  destruct (dashboard_on_served_data (fun _ => 1 # 2)
              {| Route.file := None; Route.draws := 0 |} TabSteps)
    as (payload & w' & H1 & _ & _ & _ & _ & _ & _ & _ & H2).
  - intros n. split; [discriminate|reflexivity].
  - exists payload, w'. split; assumption.
Defined.







Lemma isoDate_of_day t t' : Day t = Day t' -> Route.isoDate t = Route.isoDate t'.
Proof.
  intros H. unfold Route.isoDate, YearFromTime, MonthFromTime, DateFromTime.
  rewrite H. reflexivity.
Qed.

Lemma dateLabel_of_printed_date item t :
  date item = Route.isoDate t -> 1 <= YearFromTime t <= 9999 ->
  HomePage.dateLabel item = date item.
Proof.
  intros Hd Hy. unfold HomePage.dateLabel. rewrite Hd.
  destruct (isoDate_reads_back t) as [_ Hp]. rewrite (Hp Hy).
  rewrite format_is_isoDate. apply isoDate_of_day.
  apply (Day_MakeDate (Day t) 0). unfold msPerDay. lia.
Qed.

(** X5.  [HomePage] applied to what [GET] serves: the label of every data
    point is its date string itself, no label is "Invalid Date", and both
    sections show their line chart. *)
Theorem HomePage_on_served_data random w :
  exists payload w',
    Route.GET random w = ({| status := 200; body := Payload payload |}, w')
    /\ HomePage.labels (HomePage.stepData payload) = map date payload
    /\ HomePage.labels (HomePage.weightData payload) = map date payload
    /\ ~ In "Invalid Date"%string (HomePage.labels (HomePage.stepData payload))
    /\ HomePage.stepsBlock payload = HomePage.Line (HomePage.stepData payload)
    /\ HomePage.weightBlock payload = HomePage.Line (HomePage.weightData payload).
Proof.
  rewrite GET_payload.
  set (payload := map (testPoint random 1735776000000 (Route.draws w)) (seq 0 30)).
  exists payload, {| Route.file := Some (Records payload);
                     Route.draws := (Route.draws w + 60)%nat |}.
  assert (Hlabels : map HomePage.dateLabel payload = map date payload).
  { apply map_ext_in. intros item Hin.
    apply in_map_iff in Hin as (k & <- & Hk). apply in_seq in Hk.
    apply (dateLabel_of_printed_date _ (1735776000000 + Z.of_nat k * msPerDay)).
    - reflexivity.
    - apply served_years. lia. }
  split; [reflexivity|]. split; [exact Hlabels|]. split; [exact Hlabels|].
  split; [|split; reflexivity].
  cbn [HomePage.stepData HomePage.labels]. rewrite Hlabels.
  intros Hin. apply in_map_iff in Hin as (item & Hd & Hin).
  apply in_map_iff in Hin as (k & <- & Hk). apply in_seq in Hk.
  cbn [testPoint date] in Hd.
  destruct (isoDate_chars (1735776000000 + Z.of_nat k * msPerDay))
    as (ys & ms & ds & Ec & Hl1 & Hd1 & _);
    [pose proof (served_years k ltac:(lia)); lia|].
  rewrite Hd in Ec.
  destruct ys as [|c ys']; [discriminate Hl1|].
  cbn in Ec. injection Ec as Hc _. subst c. discriminate Hd1.
Qed.
